(** * LangSAM (samgeo/text_sam.py): a shallow embedding and its properties

    The module chains an open-vocabulary detector (GroundingDINO) and a
    box-prompted segmenter (SAM), merges the masks into one overlay raster and
    keeps the latest result on the [LangSAM] object.

    The embedding follows the Python text line by line:
    - the object's fields, what was printed and the calls made to external
      libraries are threaded through a state-and-exception monad [M];
    - Python locals that are bound on one branch only are [option]s, and
      reading an unbound one raises [UnboundLocalError];
    - NumPy arrays are a dtype, a shape and an indexing function; integer
      dtypes wrap around;
    - the pretrained models, rasterio, PIL, matplotlib and the helpers of
      [samgeo.common] are fields of the record [Externals]. *)

From Stdlib Require Import ZArith List String Bool Arith Lia.
From Stdlib Require QArith.
Import ListNotations.
Local Open Scope string_scope.
Local Open Scope list_scope.
Local Open Scope Z_scope.

(** ** Python results *)

Module Py.

Inductive exn : Type :=
| ValueError (msg : string)
| TypeError (msg : string)
| IndexError (msg : string)
| KeyError (key : string)
| UnboundLocalError (var : string)
| ExternalError (origin : string).

Inductive Res (A : Type) : Type :=
| Ok (a : A)
| Raise (e : exn).

Arguments Ok {A} a.
Arguments Raise {A} e.

Definition is_raise {A : Type} (r : Res A) : bool :=
  match r with
  | Ok _ => false
  | Raise _ => true
  end.

End Py.
Import Py.

(** ** The part of NumPy the module uses *)

Module Np.

(** The integer dtypes.  [int64] is also NumPy's default integer, the
    result type of [bool_array * python_int]. *)
Inductive dtype : Type :=
| uint8 | uint16 | uint32 | uint64
| int8 | int16 | int32 | int64.

Definition bits (d : dtype) : Z :=
  match d with
  | uint8 | int8 => 8
  | uint16 | int16 => 16
  | uint32 | int32 => 32
  | uint64 | int64 => 64
  end.

Definition signed (d : dtype) : bool :=
  match d with
  | uint8 | uint16 | uint32 | uint64 => false
  | int8 | int16 | int32 | int64 => true
  end.

(** Conversion of an integer to dtype [d]: C-style wrap-around. *)
Definition wrap (d : dtype) (z : Z) : Z :=
  if signed d
  then (z + 2 ^ (bits d - 1)) mod 2 ^ bits d - 2 ^ (bits d - 1)
  else z mod 2 ^ bits d.

(** A 2-D integer array. *)
Record ndarray2 : Type := {
  dtype2 : dtype;
  shape2 : nat * nat;            (* (rows, columns) *)
  at2 : nat -> nat -> Z
}.

(** A 2-D boolean array (also a boolean torch tensor moved to NumPy). *)
Record barray2 : Type := {
  bshape2 : nat * nat;
  bat2 : nat -> nat -> bool
}.

(** A 3-D array of image samples. *)
Record ndarray3 : Type := {
  shape3 : nat * nat * nat;
  at3 : nat -> nat -> nat -> Z
}.

(** [a.transpose((1, 2, 0))] *)
Definition transpose_120 (a : ndarray3) : ndarray3 :=
  let '(n0, n1, n2) := shape3 a in
  {| shape3 := (n1, n2, n0);
     at3 := fun i j k => at3 a k i j |}.

(** [a[:, :, :3]] *)
Definition first3 (a : ndarray3) : ndarray3 :=
  let '(n0, n1, n2) := shape3 a in
  {| shape3 := (n0, n1, Nat.min 3 n2);
     at3 := at3 a |}.

(** [a[..., 0]]: index 0 on the last axis, an [IndexError] when that axis
    is empty.  Only the shape of the plane is used afterwards. *)
Definition plane0 (a : ndarray3) : Res (nat * nat) :=
  let '(n0, n1, n2) := shape3 a in
  if (n2 =? 0)%nat
  then Raise (IndexError "index 0 is out of bounds for axis 2 with size 0")
  else Ok (n0, n1).

(** [np.zeros_like(plane, dtype=d)] *)
Definition zeros_like (plane : nat * nat) (d : dtype) : ndarray2 :=
  {| dtype2 := d; shape2 := plane; at2 := fun _ _ => 0 |}.

(** [b.astype(d)] for a boolean array. *)
Definition astype_bool (d : dtype) (b : barray2) : ndarray2 :=
  {| dtype2 := d;
     shape2 := bshape2 b;
     at2 := fun r c => if bat2 b r c then 1 else 0 |}.

(** [a.astype(d)] *)
Definition astype (d : dtype) (a : ndarray2) : ndarray2 :=
  {| dtype2 := d;
     shape2 := shape2 a;
     at2 := fun r c => wrap d (at2 a r c) |}.

(** [a > 0] *)
Definition gt0 (a : ndarray2) : barray2 :=
  {| bshape2 := shape2 a;
     bat2 := fun r c => 0 <? at2 a r c |}.

(** [b > 0] for a boolean array: [True > 0] is [True]. *)
Definition bgt0 (b : barray2) : barray2 :=
  {| bshape2 := bshape2 b;
     bat2 := fun r c => 0 <? (if bat2 b r c then 1 else 0) |}.

(** [b * k] for a boolean array and a Python integer (within 64 bits):
    the result has the default integer dtype. *)
Definition mul_int (b : barray2) (k : Z) : ndarray2 :=
  {| dtype2 := int64;
     shape2 := bshape2 b;
     at2 := fun r c => if bat2 b r c then k else 0 |}.

(** Can an axis of length [n] be broadcast to length [N]? *)
Definition axis_ok (n N : nat) : bool := ((n =? N) || (n =? 1))%nat.

Definition axis_ix (n N i : nat) : nat := if (n =? N)%nat then i else 0%nat.

(** [a += b] for [b] already of [a]'s dtype: [b] is broadcast to the shape
    of [a] (a [ValueError] when it cannot be), the sum wraps in the dtype. *)
Definition iadd (a b : ndarray2) : Res ndarray2 :=
  let '(H, W) := shape2 a in
  let '(h, w) := shape2 b in
  if axis_ok h H && axis_ok w W
  then Ok {| dtype2 := dtype2 a;
             shape2 := (H, W);
             at2 := fun r c =>
               wrap (dtype2 a)
                    (at2 a r c + at2 b (axis_ix h H r) (axis_ix w W c)) |}
  else Raise (ValueError "operands could not be broadcast together").

(** What [array_to_image] accepts: one band or several. *)
Inductive array : Type :=
| Arr2 (a : ndarray2)
| Arr3 (a : ndarray3).

End Np.
Import Np.

(** ** External components *)

(** A PIL image; [np.asarray] gives its samples back, shape (H, W, C). *)
Record PILImage : Type := { pil_array : ndarray3 }.

(** [image.size] is (width, height). *)
Definition pil_size (im : PILImage) : nat * nat :=
  let '(h, w, _) := shape3 (pil_array im) in (w, h).

(** What [text_sam.py] imports: floating point, the two models, rasterio,
    PIL and the helpers of [samgeo.common].  A call that can fail returns a
    [Res]; matplotlib's calls are recorded as events and do not fail. *)
Record Externals : Type := {
  float : Type;
  fadd : float -> float -> float;
  fsub : float -> float -> float;
  fmul : float -> float -> float;
  fhalf : float;                                   (* 0.5 *)
  float_of_nat : nat -> float;
  tensor : Type;                                   (* a preprocessed image *)
  CRS : Type;
  Affine : Type;
  os_path_exists : string -> bool;
  download_file : string -> Res string;            (* samgeo.common *)
  rasterio_read : string -> Res (ndarray3 * Affine * CRS);
  Image_fromarray : ndarray3 -> Res PILImage;
  T_compose : PILImage -> tensor;                  (* resize, to tensor, normalise *)
  groundingdino_predict :
    tensor -> string -> float -> float ->
    Res (list (float * float * float * float) * list float * list string);
  sam_set_image : ndarray3 -> Res unit;
  sam_apply_boxes :
    list (float * float * float * float) -> nat * nat ->
    list (float * float * float * float);
  (* [predict_torch(..., multimask_output=False)]: a tensor (n, 1, H, W),
     given as its n boolean masks *)
  sam_predict_torch :
    ndarray3 -> list (float * float * float * float) -> Res (list barray2);
  array_to_image :                                 (* samgeo.common *)
    array -> string -> option string -> option dtype -> Res unit;
  blend_images : ndarray2 -> option PILImage -> Res ndarray3;  (* samgeo.common *)
  rasterio_write : string -> Res unit;
  load_groundingdino : Res unit;
  load_sam : string -> Res unit
}.

(** ** The orchestrator *)

Section LangSAM.

Variable E : Externals.

Definition box : Type := (float E * float E * float E * float E)%type.

(** The session fields set by [__init__] (lines 78-84); [None] is Python's
    [None]. *)
Record LangSAM : Type := {
  source : option string;
  image : option PILImage;
  masks : option (list barray2);
  boxes : option (list box);
  phrases : option (list string);
  logits : option (list (float E));
  prediction : option ndarray2
}.

(** matplotlib calls made by [show_anns]. *)
Inductive plt_call : Type :=
| Figure
| ImshowImage (im : option PILImage)
| AddPatch (b : box)
| ImshowOverlay (a : ndarray2)
| Title (t : string)
| Axis.

(** Calls that leave the module, in the order they are made. *)
Inductive event : Type :=
| Download (url : string)
| RasterioRead (path : string)
| FromArray
| LoadModels (model_type : string)
| Detector (caption : string)
| SamSetImage
| SamPredict (nboxes : nat)
| ArrayToImage (a : array) (output : string) (src : option string)
               (d : option dtype)
| BlendImages
| Plt (c : plt_call)
| RasterioWrite (path : string) (height width count : nat) (d : dtype)
                (crs : CRS E) (transform : Affine E) (band : ndarray2).

Definition is_model_call (e : event) : bool :=
  match e with
  | Detector _ | SamSetImage | SamPredict _ => true
  | _ => false
  end.

Definition is_file_write (e : event) : bool :=
  match e with
  | ArrayToImage _ _ _ _ | RasterioWrite _ _ _ _ _ _ _ _ => true
  | _ => false
  end.

Definition is_rendering (e : event) : bool :=
  match e with
  | Plt _ | BlendImages => true
  | _ => false
  end.

Record world : Type := {
  self : LangSAM;
  stdout : list string;
  trace : list event
}.

(** *** State and exceptions *)

Definition M (A : Type) : Type := world -> Res A * world.

Definition ret {A : Type} (a : A) : M A := fun w => (Ok a, w).

Definition bind {A B : Type} (m : M A) (k : A -> M B) : M B :=
  fun w =>
    match m w with
    | (Ok a, w1) => k a w1
    | (Raise e, w1) => (Raise e, w1)
    end.

Definition raise {A : Type} (e : exn) : M A := fun w => (Raise e, w).

Definition lift {A : Type} (r : Res A) : M A := fun w => (r, w).

Notation "x <- m ;; k" := (bind m (fun x => k))
  (at level 100, m at next level, right associativity).
Notation "' p <- m ;; k" := (bind m (fun x => let p := x in k))
  (at level 100, p pattern, m at next level, right associativity).
Notation "m ;;; k" := (bind m (fun _ => k))
  (at level 100, right associativity).

Definition print (s : string) : M unit :=
  fun w => (Ok tt, {| self := self w;
                      stdout := stdout w ++ [s];
                      trace := trace w |}).

Definition emit (e : event) : M unit :=
  fun w => (Ok tt, {| self := self w;
                      stdout := stdout w;
                      trace := trace w ++ [e] |}).

(** An external call: it is recorded, then it returns or raises. *)
Definition call {A : Type} (e : event) (r : Res A) : M A :=
  emit e ;;; lift r.

Definition get_self : M LangSAM := fun w => (Ok (self w), w).

Definition put_self (s : LangSAM) : M unit :=
  fun w => (Ok tt, {| self := s; stdout := stdout w; trace := trace w |}).

Definition set_source (p : string) : M unit :=
  s <- get_self ;;
  put_self {| source := Some p; image := image s; masks := masks s;
              boxes := boxes s; phrases := phrases s; logits := logits s;
              prediction := prediction s |}.

Definition set_image (im : PILImage) : M unit :=
  s <- get_self ;;
  put_self {| source := source s; image := Some im; masks := masks s;
              boxes := boxes s; phrases := phrases s; logits := logits s;
              prediction := prediction s |}.

(** Lines 193-197. *)
Definition set_results (ms : list barray2) (bs : list box)
    (ps : list string) (ls : list (float E)) (overlay : ndarray2) : M unit :=
  s <- get_self ;;
  put_self {| source := source s; image := image s; masks := Some ms;
              boxes := Some bs; phrases := Some ps; logits := Some ls;
              prediction := Some overlay |}.

(** Reading a local that is bound on some paths only. *)
Definition read_local {A : Type} (name : string) (v : option A) : M A :=
  match v with
  | Some a => ret a
  | None => raise (UnboundLocalError name)
  end.

(** *** [__init__] (lines 71-84) *)

Definition SAM_MODELS : list string := ["vit_h"; "vit_l"; "vit_b"].

Definition empty_session : LangSAM :=
  {| source := None; image := None; masks := None; boxes := None;
     phrases := None; logits := None; prediction := None |}.

Definition build_sam (model_type : string) : M unit :=
  if existsb (String.eqb model_type) SAM_MODELS
  then lift (load_sam E model_type)
  else raise (KeyError model_type).

Definition init (model_type : string) : M unit :=
  emit (LoadModels model_type) ;;;
  lift (load_groundingdino E) ;;;
  build_sam model_type ;;;
  put_self empty_session.

(** *** Detection adapter (lines 57-66, 102-115) *)

Definition transform_image (im : PILImage) : tensor E := T_compose E im.

(** [box_ops.box_cxcywh_to_xyxy], one row. *)
Definition box_cxcywh_to_xyxy (b : box) : box :=
  let '(cx, cy, w, h) := b in
  (fsub E cx (fmul E (fhalf E) w), fsub E cy (fmul E (fhalf E) h),
   fadd E cx (fmul E (fhalf E) w), fadd E cy (fmul E (fhalf E) h)).

(** One row times [torch.Tensor([W, H, W, H])]. *)
Definition scale_box (W H : nat) (b : box) : box :=
  let '(x0, y0, x1, y1) := b in
  (fmul E x0 (float_of_nat E W), fmul E y0 (float_of_nat E H),
   fmul E x1 (float_of_nat E W), fmul E y1 (float_of_nat E H)).

Definition predict_dino (im : PILImage) (text_prompt : string)
    (box_threshold text_threshold : float E)
    : M (list box * list (float E) * list string) :=
  let image_trans := transform_image im in
  '(bs, ls, ps) <-
     call (Detector text_prompt)
          (groundingdino_predict E image_trans text_prompt
                                 box_threshold text_threshold) ;;
  let '(W, H) := pil_size im in
  ret (map (fun b => scale_box W H (box_cxcywh_to_xyxy b)) bs, ls, ps).

(** *** Segmentation adapter (lines 117-129) *)

Definition predict_sam (im : PILImage) (bs : list box) : M (list barray2) :=
  let image_array := pil_array im in
  call SamSetImage (sam_set_image E image_array) ;;;
  let '(h, w, _) := shape3 image_array in
  let transformed_boxes := sam_apply_boxes E bs (h, w) in
  call (SamPredict (List.length transformed_boxes))
       (sam_predict_torch E image_array transformed_boxes).

(** *** Mask compositor (lines 178-187) *)

(** The body of the loop at lines 180-184, from index [i] on. *)
Fixpoint overlay_loop (d : dtype) (i : nat) (items : list (box * barray2))
    (mask_overlay : ndarray2) : Res ndarray2 :=
  match items with
  | [] => Ok mask_overlay
  | (_, mask) :: rest =>
      let mask' := astype_bool d mask in
      match iadd mask_overlay
                 (astype d (mul_int (gt0 mask') (Z.of_nat i + 1))) with
      | Ok mask_overlay' => overlay_loop d (S i) rest mask_overlay'
      | Raise e => Raise e
      end
  end.

(** Lines 178-184: the accumulator, [zip] stops at the shorter sequence. *)
Definition accumulate (d : dtype) (plane : nat * nat) (bs : list box)
    (ms : list barray2) : Res ndarray2 :=
  overlay_loop d 0 (combine bs ms) (zeros_like plane d).

(** Line 187. *)
Definition binarize (mask_overlay : ndarray2) (mask_multiplier : Z)
    : ndarray2 :=
  mul_int (gt0 mask_overlay) mask_multiplier.

(** *** [predict] (lines 131-200) *)

Inductive image_arg : Type :=
| ImgStr (path : string)                (* a local path or a URL *)
| ImgObj (im : PILImage).               (* an in-memory image *)

(** What [predict] returns. *)
Inductive results : Type :=
| RNone
| RTuple (ms : list barray2) (bs : list box) (ps : list string)
         (ls : list (float E)).

(** [boxes.nelement()] of an (n, 4) tensor. *)
Definition nelement (bs : list box) : nat := (4 * List.length bs)%nat.

Definition no_objects_msg : string := "No objects found in the image.".

(** Lines 145-161: the image that goes to the models, and the local
    [image_np], which only the string branch binds. *)
Definition open_image (img : image_arg)
    : M (PILImage * option ndarray3) :=
  match img with
  | ImgStr path0 =>
      path <- (if prefix "http" path0
               then call (Download path0) (download_file E path0)
               else ret path0) ;;
      if negb (os_path_exists E path)
      then raise (ValueError
                    ("Input path " ++ path ++ " does not exist.")%string)
      else
        set_source path ;;;
        '(bands, _, _) <- call (RasterioRead path) (rasterio_read E path) ;;
        let image_np := transpose_120 bands in
        image_pil <- call FromArray (Image_fromarray E (first3 image_np)) ;;
        ret (image_pil, Some image_np)
  | ImgObj im => ret (im, None)
  end.

Definition predict (img : image_arg) (text_prompt : string)
    (box_threshold text_threshold : float E) (output : option string)
    (mask_multiplier : Z) (dtype : Np.dtype) (return_results : bool)
    : M results :=
  '(image_pil, image_np) <- open_image img ;;
  set_image image_pil ;;;
  '(bs, ls, ps) <-
     predict_dino image_pil text_prompt box_threshold text_threshold ;;
  ms <- (if (0 <? List.length bs)%nat
         then predict_sam image_pil bs     (* then [squeeze(1)] *)
         else ret []) ;;
  if (nelement bs =? 0)%nat
  then print no_objects_msg ;;; ret RNone
  else
    image_np <- read_local "image_np" image_np ;;
    plane <- lift (plane0 image_np) ;;
    acc <- lift (accumulate dtype plane bs ms) ;;
    let mask_overlay := binarize acc mask_multiplier in
    match output with
    | Some out =>
        s <- get_self ;;
        call (ArrayToImage (Arr2 mask_overlay) out (source s) (Some dtype))
             (array_to_image E (Arr2 mask_overlay) out (source s)
                             (Some dtype))
    | None => ret tt
    end ;;;
    set_results ms bs ps ls mask_overlay ;;;
    if return_results then ret (RTuple ms bs ps ls) else ret RNone.

(** *** [show_anns] (lines 202-271) *)

Fixpoint for_each {A : Type} (f : A -> M unit) (l : list A) : M unit :=
  match l with
  | [] => ret tt
  | a :: rest => f a ;;; for_each f rest
  end.

Definition run_predict_first_msg : string := "Please run predict() first.".

(** [len(anns)] of a 2-D array is its number of rows.  The drawing
    parameters (figure size, colours, alpha) only reach matplotlib and are
    left out. *)
Definition show_anns (add_boxes : bool) (title output : option string)
    (blend : bool) : M unit :=
  s <- get_self ;;
  match prediction s with
  | None => print run_predict_first_msg
  | Some anns =>
      if (fst (shape2 anns) =? 0)%nat
      then print no_objects_msg
      else
        emit (Plt Figure) ;;;
        emit (Plt (ImshowImage (image s))) ;;;
        (if add_boxes
         then match boxes s with
              | Some bs => for_each (fun b => emit (Plt (AddPatch b))) bs
              | None =>
                  raise (TypeError "'NoneType' object is not iterable")
              end
         else ret tt) ;;;
        emit (Plt (ImshowOverlay anns)) ;;;
        match title with
        | Some t => emit (Plt (Title t))
        | None => ret tt
        end ;;;
        emit (Plt Axis) ;;;
        match output with
        | Some out =>
            arr <- (if blend
                    then a <- call BlendImages
                                   (blend_images E anns (image s)) ;;
                         ret (Arr3 a)
                    else ret (Arr2 anns)) ;;
            call (ArrayToImage arr out (source s) None)
                 (array_to_image E arr out (source s) None)
        | None => ret tt
        end
  end.

(** *** [main] (lines 274-335) *)

Record cli_args : Type := {
  arg_image : string;
  arg_prompt : string;
  arg_box_threshold : float E;
  arg_text_threshold : float E
}.

(** [masks, boxes, phrases, logits = ...] *)
Definition unpack4 (r : results)
    : M (list barray2 * list box * list string * list (float E)) :=
  match r with
  | RTuple ms bs ps ls => ret (ms, bs, ps, ls)
  | RNone =>
      raise (TypeError "cannot unpack non-iterable NoneType object")
  end.

(** Lines 312-317, [n] iterations from index [i] on. *)
Fixpoint main_loop (n i : nat) (ms : list barray2)
    (mask_overlay : ndarray2) : Res ndarray2 :=
  match n with
  | O => Ok mask_overlay
  | S n' =>
      match nth_error ms i with
      | None => Raise (IndexError "index is out of bounds for dimension 0")
      | Some mask =>
          match iadd mask_overlay
                     (mul_int (bgt0 mask) (Z.of_nat i + 1)) with
          | Ok mask_overlay' => main_loop n' (S i) ms mask_overlay'
          | Raise e => Raise e
          end
      end
  end.

Definition main (args : cli_args) : M unit :=
  '(bands, transform, crs) <-
     call (RasterioRead (arg_image args))
          (rasterio_read E (arg_image args)) ;;
  let image_np := transpose_120 bands in
  init "vit_h" ;;;
  image_pil <- call FromArray (Image_fromarray E (first3 image_np)) ;;
  r <- predict (ImgObj image_pil) (arg_prompt args)
               (arg_box_threshold args) (arg_text_threshold args)
               None 255 uint8 false ;;
  '(ms, bs, _, _) <- unpack4 r ;;
  mask_overlay <-
    (if (nelement bs =? 0)%nat
     then print no_objects_msg ;;; ret None
     else
       plane <- lift (plane0 image_np) ;;
       acc <- lift (main_loop (List.length bs) 0 ms
                              (zeros_like plane int64)) ;;
       ret (Some acc)) ;;
  mask_overlay <- read_local "mask_overlay" mask_overlay ;;
  let mask_overlay := astype uint8 (mul_int (gt0 mask_overlay) 255) in
  let '(height, width) := shape2 mask_overlay in
  call (RasterioWrite "mask.tif" height width 1 (dtype2 mask_overlay)
                      crs transform mask_overlay)
       (rasterio_write E "mask.tif").

End LangSAM.

Arguments source {E} _.
Arguments image {E} _.
Arguments masks {E} _.
Arguments boxes {E} _.
Arguments phrases {E} _.
Arguments logits {E} _.
Arguments prediction {E} _.
Arguments self {E} _.
Arguments stdout {E} _.
Arguments trace {E} _.
Arguments RNone {E}.
Arguments RTuple {E} _ _ _ _.
Arguments is_model_call {E} e.
Arguments is_file_write {E} e.
Arguments is_rendering {E} e.

(** ** A test double for the external components

    A deterministic stub in the sense of the design notes: the detector
    answers by prompt, the segmenter returns one mask per box. *)

Module Stub.

(** A raster with 3 bands of 2 x 2 samples. *)
Definition bands322 : ndarray3 :=
  {| shape3 := (3%nat, 2%nat, 2%nat);
     at3 := fun b r c => Z.of_nat (b + r + c) |}.

Definition unit_box : QArith_base.Q * QArith_base.Q * QArith_base.Q
                      * QArith_base.Q :=
  (QArith_base.Qmake 1 2, QArith_base.Qmake 1 2,
   QArith_base.Qmake 1 2, QArith_base.Qmake 1 2).

(** Mask [i] of [n]: pixel (0,0) is covered by the first and by the last
    mask, pixel (0,1) by the first mask only. *)
Definition stub_mask (shape : nat * nat) (n i : nat) : barray2 :=
  {| bshape2 := shape;
     bat2 := fun r c =>
       ((r =? 0) && (c =? 0) && ((i =? 0) || (S i =? n))
        || (r =? 0) && (c =? 1) && (i =? 0))%nat |}.

Definition detections (caption : string) : nat :=
  if String.eqb caption "tree" then 1%nat
  else if String.eqb caption "two trees" then 2%nat
  else if String.eqb caption "forest" then 255%nat
  else 0%nat.

Definition env : Externals :=
  {| float := QArith_base.Q;
     fadd := QArith_base.Qplus;
     fsub := QArith_base.Qminus;
     fmul := QArith_base.Qmult;
     fhalf := QArith_base.Qmake 1 2;
     float_of_nat := fun n => QArith_base.inject_Z (Z.of_nat n);
     tensor := PILImage;
     CRS := string;
     Affine := list Z;
     os_path_exists := fun p => String.eqb p "scene.tif";
     download_file := fun _ => Ok "/tmp/download.tif";
     rasterio_read := fun _ => Ok (bands322, [1; 0; 0; 0; -1; 0], "EPSG:4326");
     Image_fromarray := fun a => Ok {| pil_array := a |};
     T_compose := fun im => im;
     groundingdino_predict := fun _ caption _ _ =>
       let n := detections caption in
       Ok (repeat unit_box n, repeat (QArith_base.Qmake 1 2) n,
           repeat caption n);
     sam_set_image := fun _ => Ok tt;
     sam_apply_boxes := fun bs _ => bs;
     sam_predict_torch := fun a bs =>
       let '(h, w, _) := shape3 a in
       Ok (map (stub_mask (h, w) (List.length bs)) (seq 0 (List.length bs)));
     array_to_image := fun _ _ _ _ => Ok tt;
     blend_images := fun _ _ => Ok bands322;
     rasterio_write := fun _ => Ok tt;
     load_groundingdino := Ok tt;
     load_sam := fun _ => Ok tt |}.

Definition w0 : world env :=
  {| self := empty_session env; stdout := []; trace := [] |}.

(** An in-memory RGB image of 2 x 2 pixels. *)
Definition rgb22 : PILImage := {| pil_array := first3 (transpose_120 bands322) |}.

(** The world after [m]. *)
Definition after {A : Type} (m : M env A) (w : world env) : world env :=
  snd (m w).

Definition half : float env := QArith_base.Qmake 1 2.

(** [predict] with the default output, multiplier and dtype. *)
Definition predict_default (img : image_arg) (text_prompt : string)
    : M env (results env) :=
  predict env img text_prompt half half None 255 uint8 false.

(** One successful prediction on the raster. *)
Definition w_tree : world env :=
  after (predict_default (ImgStr "scene.tif") "tree") w0.

(** ... followed by a prediction that finds nothing. *)
Definition w_tree_then_nothing : world env :=
  after (predict_default (ImgStr "scene.tif") "rhinoceros") w_tree.

Definition args_tree : cli_args env :=
  {| arg_image := "scene.tif"; arg_prompt := "tree";
     arg_box_threshold := half; arg_text_threshold := half |}.

(** The events [m] adds to the trace of [w]. *)
Definition new_events {A : Type} (m : M env A) (w : world env)
    : list (event env) :=
  skipn (List.length (trace w)) (trace (after m w)).

End Stub.

(** ** Vocabulary of the statements *)

(** The sum of the labels [i + 1] of the masks that cover pixel (r, c),
    the first mask having index [i]. *)
Fixpoint label_sum (i : nat) (ms : list barray2) (r c : nat) : Z :=
  match ms with
  | [] => 0
  | m :: rest =>
      (if bat2 m r c then Z.of_nat i + 1 else 0) + label_sum (S i) rest r c
  end.

(** Is pixel (r, c) covered by one of the masks? *)
Definition covered (ms : list barray2) (r c : nat) : bool :=
  existsb (fun m => bat2 m r c) ms.

(** The five result fields of [w'] are those of [w]. *)
Definition results_kept {E : Externals} (w w' : world E) : Prop :=
  masks (self w') = masks (self w) /\
  boxes (self w') = boxes (self w) /\
  phrases (self w') = phrases (self w) /\
  logits (self w') = logits (self w) /\
  prediction (self w') = prediction (self w).

(** The path [predict] checks: the argument, or what [download_file]
    returned for a URL. *)
Definition resolved_path (E : Externals) (path0 : string) : Res string :=
  if prefix "http" path0 then download_file E path0 else Ok path0.

(** The boxes [predict_dino] returns for the detector's rows [bs0]. *)
Definition pixel_boxes (E : Externals) (im : PILImage)
    (bs0 : list (box E)) : list (box E) :=
  let '(W, H) := pil_size im in
  map (fun b => scale_box E W H (box_cxcywh_to_xyxy E b)) bs0.

(** The boxes [predict_sam] hands to the segmenter. *)
Definition sam_boxes (E : Externals) (im : PILImage)
    (bs : list (box E)) : list (box E) :=
  let '(h, w, _) := shape3 (pil_array im) in sam_apply_boxes E bs (h, w).

(** The call gets as far as the detector, which returns [n] boxes. *)
Definition detections_found (E : Externals) (img : image_arg)
    (text_prompt : string) (box_threshold text_threshold : float E)
    (w : world E) (n : nat) : Prop :=
  exists im np w1 bs0 ls ps,
    open_image E img w = (Ok (im, np), w1) /\
    groundingdino_predict E (transform_image E im) text_prompt
                          box_threshold text_threshold
      = Ok (bs0, ls, ps) /\
    List.length bs0 = n.

(** GroundingDINO's contract: one logit and one phrase per box. *)
Definition detector_aligned (E : Externals) : Prop :=
  forall t caption bt tth bs0 ls ps,
    groundingdino_predict E t caption bt tth = Ok (bs0, ls, ps) ->
    List.length ls = List.length bs0 /\ List.length ps = List.length bs0.

(** SAM's contract: boxes are only rescaled, and there is one mask per
    box. *)
Definition segmenter_aligned (E : Externals) : Prop :=
  (forall bs size, List.length (sam_apply_boxes E bs size) = List.length bs) /\
  (forall a bs ms,
      sam_predict_torch E a bs = Ok ms -> List.length ms = List.length bs).

(** The call did not complete: it raised, or returned early after
    reporting that nothing was found. *)
Definition not_completed {E : Externals} {A : Type} (res : Res A)
    (w w' : world E) : Prop :=
  is_raise res = true \/ stdout w' = stdout w ++ [no_objects_msg].

(** A call that ran detection and segmentation to the end and stored the
    results. *)
Definition predict_success (E : Externals) (img : image_arg) (text_prompt : string)
    (box_threshold text_threshold : float E) (mask_multiplier : Z)
    (dtype : Np.dtype) (return_results : bool)
    (w w' : world E) (res : Res (results E)) : Prop :=
  exists im np w1 bs0 ls ps ms plane acc,
    open_image E img w = (Ok (im, Some np), w1) /\
    groundingdino_predict E (transform_image E im) text_prompt
                          box_threshold text_threshold
      = Ok (bs0, ls, ps) /\
    bs0 <> [] /\
    sam_predict_torch E (pil_array im)
                      (sam_boxes E im (pixel_boxes E im bs0)) = Ok ms /\
    plane0 np = Ok plane /\
    accumulate E dtype plane (pixel_boxes E im bs0) ms = Ok acc /\
    res = Ok (if return_results
              then RTuple ms (pixel_boxes E im bs0) ps ls
              else RNone) /\
    stdout w' = stdout w /\
    source (self w') = source (self w1) /\
    image (self w') = Some im /\
    masks (self w') = Some ms /\
    boxes (self w') = Some (pixel_boxes E im bs0) /\
    phrases (self w') = Some ps /\
    logits (self w') = Some ls /\
    prediction (self w') = Some (binarize acc mask_multiplier).


(** The five result fields are all [None] or all set. *)
Definition all_or_none {E : Externals} (s : LangSAM E) : Prop :=
  (masks s = None /\ boxes s = None /\ phrases s = None /\
   logits s = None /\ prediction s = None) \/
  (masks s <> None /\ boxes s <> None /\ phrases s <> None /\
   logits s <> None /\ prediction s <> None).

(** Can an array of shape [shape] be broadcast to [plane]? *)
Definition broadcastable (plane shape : nat * nat) : bool :=
  axis_ok (fst shape) (fst plane) && axis_ok (snd shape) (snd plane).

Definition broadcast_error : exn :=
  ValueError "operands could not be broadcast together".


(** The drawing calls of [show_anns] for overlay [anns]: figure, image,
    one rectangle per box, overlay, title, axis. *)
Definition drawing (E : Externals) (s : LangSAM E) (anns : ndarray2) (add_boxes : bool)
    (title : option string) : list (event E) :=
  [Plt E (Figure E); Plt E (ImshowImage E (image s))]
  ++ (if add_boxes
      then match boxes s with
           | Some bs => map (fun b => Plt E (AddPatch E b)) bs
           | None => []
           end
      else [])
  ++ [Plt E (ImshowOverlay E anns)]
  ++ match title with
     | Some t => [Plt E (Title E t)]
     | None => []
     end
  ++ [Plt E (Axis E)].

Ltac crunch :=
  repeat match goal with
         | H : (_, _) = (_, _) |- _ => inversion H; subst; clear H
         | H : context [match ?x with _ => _ end] |- _ =>
             destruct x eqn:?; simpl in H; try discriminate H
         end.

Ltac run_in H :=
  cbv beta iota zeta
      delta [open_image predict_dino predict_sam call bind emit lift ret
             raise print set_source set_image set_results read_local
             get_self put_self] in H.

(** ** Arithmetic of the integer dtypes *)

Lemma wrap_zero (d : dtype) : wrap d 0 = 0.
Proof. destruct d; reflexivity. Qed.

Lemma wrap_uint8 (z : Z) : wrap uint8 z = z mod 256.
Proof. reflexivity. Qed.

Lemma wrap_add (d : dtype) (a b : Z) :
  wrap d (wrap d a + wrap d b) = wrap d (a + b).
Proof.
  unfold wrap. destruct (signed d).
  - set (m := 2 ^ bits d). set (h := 2 ^ (bits d - 1)).
    f_equal.
    replace ((a + h) mod m - h + ((b + h) mod m - h) + h)
      with ((a + h) mod m + ((b + h) mod m - h)) by ring.
    rewrite Zplus_mod_idemp_l.
    replace (a + h + ((b + h) mod m - h)) with ((b + h) mod m + a) by ring.
    rewrite Zplus_mod_idemp_l. f_equal. ring.
  - rewrite <- Zplus_mod. reflexivity.
Qed.

(** ** The mask compositor *)

Section Compositor.

Variable E : Externals.

Lemma map_snd_combine (bs : list (box E)) :
  forall ms : list barray2,
    List.length bs = List.length ms -> map snd (combine bs ms) = ms.
Proof.
  induction bs as [|b bs IH]; intros [|m ms] Hlen; simpl in *;
    try discriminate; try reflexivity.
  f_equal. apply IH. congruence.
Qed.

Lemma iadd_same_shape (a b : ndarray2) :
  shape2 b = shape2 a ->
  exists a',
    iadd a b = Ok a' /\ dtype2 a' = dtype2 a /\ shape2 a' = shape2 a /\
    forall r c, at2 a' r c = wrap (dtype2 a) (at2 a r c + at2 b r c).
Proof.
  intros Hs. unfold iadd. rewrite Hs.
  destruct (shape2 a) as [H W] eqn:Ha.
  unfold axis_ok, axis_ix. rewrite !Nat.eqb_refl. simpl.
  eexists. split; [reflexivity|]. simpl. auto.
Qed.

(** The loop never fails on masks of the accumulator's shape, keeps dtype
    and shape, and adds the labels of the covering masks in the dtype. *)
Lemma overlay_loop_spec (d : dtype) :
  forall (items : list (box E * barray2)) (i : nat) (acc : ndarray2)
         (s : nat -> nat -> Z),
    dtype2 acc = d ->
    Forall (fun it => bshape2 (snd it) = shape2 acc) items ->
    (forall r c, at2 acc r c = wrap d (s r c)) ->
    exists acc',
      overlay_loop E d i items acc = Ok acc' /\
      dtype2 acc' = d /\ shape2 acc' = shape2 acc /\
      forall r c,
        at2 acc' r c = wrap d (s r c + label_sum i (map snd items) r c).
Proof.
  induction items as [|[b mask] rest IH]; intros i acc s Hd Hshape Hat.
  - exists acc. simpl. repeat split; auto.
    intros r c. rewrite Z.add_0_r. apply Hat.
  - inversion Hshape as [|x l Hm Hrest]; subst x l. simpl in Hm.
    simpl overlay_loop.
    destruct (iadd_same_shape acc
                (astype (dtype2 acc)
                   (mul_int (gt0 (astype_bool (dtype2 acc) mask))
                            (Z.of_nat i + 1))))
      as (acc1 & Hadd & Hd1 & Hs1 & Hat1); [exact Hm|].
    subst d. rewrite Hadd.
    destruct (IH (S i) acc1
                 (fun r c => s r c
                             + (if bat2 mask r c then Z.of_nat i + 1 else 0)))
      as (acc' & Hloop & Hd' & Hs' & Hat').
    + exact Hd1.
    + rewrite Hs1. exact Hrest.
    + intros r c. rewrite Hat1, Hat. simpl.
      replace (0 <? (if bat2 mask r c then 1 else 0)) with (bat2 mask r c)
        by (destruct (bat2 mask r c); reflexivity).
      rewrite wrap_add. reflexivity.
    + exists acc'. repeat split; auto.
      * congruence.
      * intros r c. rewrite Hat'. simpl. f_equal. ring.
Qed.

(** The accumulator of lines 178-184 for one mask per box, every mask of
    the plane's shape. *)
Lemma accumulate_spec (d : dtype) (plane : nat * nat) (bs : list (box E))
      (ms : list barray2) :
  List.length bs = List.length ms ->
  Forall (fun m => bshape2 m = plane) ms ->
  exists acc,
    accumulate E d plane bs ms = Ok acc /\
    dtype2 acc = d /\ shape2 acc = plane /\
    forall r c, at2 acc r c = wrap d (label_sum 0 ms r c).
Proof.
  intros Hlen Hshape. unfold accumulate.
  destruct (overlay_loop_spec d (combine bs ms) 0 (zeros_like plane d)
                              (fun _ _ => 0))
    as (acc & Hloop & Hd & Hs & Hat).
  - reflexivity.
  - simpl. apply Forall_forall. intros [b m] Hin. simpl.
    apply in_combine_r in Hin.
    rewrite Forall_forall in Hshape. auto.
  - intros r c. simpl. symmetry. apply wrap_zero.
  - exists acc. rewrite map_snd_combine in Hat by exact Hlen.
    repeat split; auto.
Qed.

Lemma label_sum_uncovered (r c : nat) :
  forall (ms : list barray2) (i : nat),
    Forall (fun m => bat2 m r c = false) ms -> label_sum i ms r c = 0.
Proof.
  induction ms as [|m ms IH]; intros i Hall; simpl; [reflexivity|].
  inversion Hall as [|x l Hm Hrest]; subst. rewrite Hm, IH; auto.
Qed.

End Compositor.

(** ** What a call to [predict] can do *)

Section Predict.

Variable E : Externals.

(** Lines 145-161 print nothing, call no model, write no file and leave
    the result fields and [image] alone. *)
Lemma open_image_inv (img : image_arg) (w w1 : world E)
      (r : Res (PILImage * option ndarray3)) :
  open_image E img w = (r, w1) ->
  stdout w1 = stdout w /\ results_kept w w1 /\
  image (self w1) = image (self w) /\
  exists evs,
    trace w1 = trace w ++ evs /\
    forallb (fun e => negb (is_model_call e)) evs = true /\
    forallb (fun e => negb (is_file_write e)) evs = true.
Proof.
  intros H. destruct img as [path0|im].
  - run_in H.
    crunch; simpl;
      (split; [reflexivity|];
       split; [repeat split|];
       split; [reflexivity|];
       eexists; split;
       [ first [ rewrite <- ?app_assoc; reflexivity
               | symmetry; apply app_nil_r ]
       | split; reflexivity ]).
  - simpl in H. inversion H; subst.
    repeat split; auto. exists []. rewrite app_nil_r. auto.
Qed.

(** Every call either keeps the five result fields (it raised, or it
    returned early on zero detections) or is a [predict_success]. *)
Lemma predict_outcome (img : image_arg) (text_prompt : string)
      (box_threshold text_threshold : float E) (output : option string)
      (mask_multiplier : Z) (dtype : Np.dtype) (return_results : bool)
      (w w' : world E) (res : Res (results E)) :
  predict E img text_prompt box_threshold text_threshold output
          mask_multiplier dtype return_results w = (res, w') ->
  (results_kept w w' /\
   (is_raise res = true \/
    (res = Ok RNone /\ stdout w' = stdout w ++ [no_objects_msg] /\
     detections_found E img text_prompt box_threshold text_threshold w 0)))
  \/ predict_success E img text_prompt box_threshold text_threshold
                     mask_multiplier dtype return_results w w' res.
Proof.
  intros H. unfold predict, bind in H.
  destruct (open_image E img w) as [[[im np]|e] w1] eqn:Hopen;
    destruct (open_image_inv _ _ _ _ Hopen) as (Hout & Hkept & Himg & _).
  2: { inversion H; subst. left. split; [exact Hkept|]. left. reflexivity. }
  run_in H.
  destruct (groundingdino_predict E (transform_image E im) text_prompt
                                  box_threshold text_threshold)
    as [[[bs0 ls] ps]|e] eqn:Hdet.
  2: { inversion H; subst. left. split; [exact Hkept|]. left. reflexivity. }
  destruct (pil_size im) as [W HH] eqn:Hsize.
  destruct bs0 as [|b0 bs0].
  { simpl in H. inversion H; subst. left. split; [exact Hkept|].
    right. simpl. rewrite Hout. repeat split.
    exists im, np, w1, [], ls, ps. auto. }
  simpl in H.
  assert (Hpb : scale_box E W HH (box_cxcywh_to_xyxy E b0)
                :: map (fun b => scale_box E W HH (box_cxcywh_to_xyxy E b))
                       bs0
                = pixel_boxes E im (b0 :: bs0))
    by (unfold pixel_boxes; rewrite Hsize; reflexivity).
  rewrite Hpb in H. clear Hpb.
  destruct (shape3 (pil_array im)) as [[h wd] ch] eqn:Hshape.
  assert (Hsb : sam_apply_boxes E (pixel_boxes E im (b0 :: bs0)) (h, wd)
                = sam_boxes E im (pixel_boxes E im (b0 :: bs0)))
    by (unfold sam_boxes; rewrite Hshape; reflexivity).
  rewrite Hsb in H. clear Hsb.
  unfold results_kept in Hkept.
  crunch; simpl;
    try (left; split; [exact Hkept | left; reflexivity]);
    (right; exists im; eexists; exists w1, (b0 :: bs0), ls, ps;
     do 3 eexists;
     repeat match goal with
            | |- _ /\ _ => split
            end;
     try eassumption; try reflexivity; try discriminate; auto).
Qed.

End Predict.

(** ** Properties of [predict] *)

Section PredictClaims.

Variable E : Externals.

Lemma detections_found_fun (img : image_arg) (text_prompt : string)
      (bt tth : float E) (w : world E) (n m : nat) :
  detections_found E img text_prompt bt tth w n ->
  detections_found E img text_prompt bt tth w m ->
  n = m.
Proof.
  intros (im & np & w1 & bs0 & ls & ps & Hopen & Hdet & Hn)
         (im' & np' & w1' & bs0' & ls' & ps' & Hopen' & Hdet' & Hm).
  rewrite Hopen in Hopen'. inversion Hopen'; subst im' np' w1'.
  rewrite Hdet in Hdet'. inversion Hdet'; subst. reflexivity.
Qed.

Lemma pixel_boxes_length (im : PILImage) (bs0 : list (box E)) :
  List.length (pixel_boxes E im bs0) = List.length bs0.
Proof.
  unfold pixel_boxes. destruct (pil_size im). apply length_map.
Qed.

Lemma stdout_grows_not (l : list string) (s : string) : l <> l ++ [s].
Proof.
  intros H. apply (f_equal (@List.length string)) in H.
  rewrite length_app in H. simpl in H. lia.
Qed.

(** C1.  When the detector returns zero boxes, the detection adapter
    returns the empty sequence and [predict] does not raise: it prints
    'No objects found in the image.' and returns (Python's [None]).  On
    this path [masks], [boxes], [phrases], [logits] and [prediction] are
    not assigned, the segmenter is not called and nothing is written. *)
Theorem predict_zero_detections (img : image_arg) (text_prompt : string)
        (bt tth : float E) (output : option string) (mm : Z) (dt : dtype)
        (rr : bool) (w : world E) :
  detections_found E img text_prompt bt tth w 0 ->
  exists w' evs,
    predict E img text_prompt bt tth output mm dt rr w = (Ok RNone, w') /\
    stdout w' = stdout w ++ [no_objects_msg] /\
    results_kept w w' /\
    trace w' = trace w ++ evs /\
    filter is_model_call evs = [Detector E text_prompt] /\
    filter is_file_write evs = [] /\
    (forall im np w1,
        open_image E img w = (Ok (im, np), w1) ->
        exists ls ps,
          fst (predict_dino E im text_prompt bt tth w1) = Ok ([], ls, ps)).
Proof.
  intros (im & np & w1 & bs0 & ls & ps & Hopen & Hdet & Hn).
  destruct bs0; [|discriminate]. clear Hn.
  destruct (open_image_inv _ _ _ _ _ Hopen)
    as (Hout & Hkept & _ & evs & Htr & Hmc & Hfw).
  unfold predict, bind. rewrite Hopen.
  cbv beta iota zeta
      delta [predict_dino call bind emit lift ret print set_image
             get_self put_self].
  rewrite Hdet. destruct (pil_size im) as [W H] eqn:Hsize. simpl.
  eexists. exists (evs ++ [Detector E text_prompt]).
  split; [reflexivity|]. simpl.
  split; [rewrite Hout; reflexivity|].
  split; [exact Hkept|].
  split; [rewrite Htr, app_assoc; reflexivity|].
  split.
  { rewrite filter_app. simpl.
    replace (filter is_model_call evs) with (@nil (event E)); [reflexivity|].
    symmetry. clear - Hmc. induction evs as [|e evs IH]; [reflexivity|].
    simpl in *. apply andb_true_iff in Hmc. destruct Hmc as [He Hevs].
    destruct (is_model_call e); [discriminate|]. auto. }
  split.
  { rewrite filter_app. simpl. rewrite app_nil_r.
    clear - Hfw. induction evs as [|e evs IH]; [reflexivity|].
    simpl in *. apply andb_true_iff in Hfw. destruct Hfw as [He Hevs].
    destruct (is_file_write e); [discriminate|]. auto. }
  intros im' np' w1' Hopen'. inversion Hopen'; subst im' np' w1'.
  exists ls, ps.
  cbv beta iota zeta delta [predict_dino call bind emit lift ret].
  rewrite Hdet, Hsize. reflexivity.
Qed.

Lemma overlay_loop_dtype (d : dtype) :
  forall (items : list (box E * barray2)) (i : nat) (acc acc' : ndarray2),
    overlay_loop E d i items acc = Ok acc' -> dtype2 acc' = dtype2 acc.
Proof.
  induction items as [|[b mask] rest IH]; intros i acc acc' H; simpl in H.
  - inversion H. reflexivity.
  - destruct (iadd acc _) as [acc1|e] eqn:Hadd; [|discriminate].
    apply IH in H. rewrite H.
    unfold iadd in Hadd.
    destruct (shape2 acc), (shape2 (astype d _)).
    destruct (axis_ok _ _ && axis_ok _ _); inversion Hadd. reflexivity.
Qed.

(** C2.  Given the two models' contracts (one logit and one phrase per
    box; one mask per box), a call to [predict] that returns normally
    after the detector found at least one box leaves [masks], [boxes],
    [phrases] and [logits] set to sequences of one common length. *)
Theorem predict_fields_aligned (img : image_arg) (text_prompt : string)
        (bt tth : float E) (output : option string) (mm : Z) (dt : dtype)
        (rr : bool) (w w' : world E) (r : results E) (n : nat) :
  detector_aligned E ->
  segmenter_aligned E ->
  detections_found E img text_prompt bt tth w (S n) ->
  predict E img text_prompt bt tth output mm dt rr w = (Ok r, w') ->
  exists ms bs ps ls,
    masks (self w') = Some ms /\ boxes (self w') = Some bs /\
    phrases (self w') = Some ps /\ logits (self w') = Some ls /\
    List.length bs = S n /\
    List.length ms = List.length bs /\
    List.length bs = List.length ps /\
    List.length ps = List.length ls.
Proof.
  intros Hdetector [Happly Hsam] Hfound H.
  destruct (predict_outcome _ _ _ _ _ _ _ _ _ _ _ _ H)
    as [[_ [Hraise|(_ & _ & Hzero)]]|Hok].
  - discriminate.
  - pose proof (detections_found_fun _ _ _ _ _ _ _ Hfound Hzero).
    discriminate.
  - destruct Hok as (im & np & w1 & bs0 & ls & ps & ms & plane & acc
                     & Hopen & Hdet & Hne & Hseg & _ & _ & _ & _ & _ & _
                     & Hms & Hbs & Hps & Hls & _).
    assert (Hn : List.length bs0 = S n).
    { apply (detections_found_fun img text_prompt bt tth w); [|exact Hfound].
      exists im, (Some np), w1, bs0, ls, ps. auto. }
    destruct (Hdetector _ _ _ _ _ _ _ Hdet) as [Hl Hp].
    apply Hsam in Hseg.
    unfold sam_boxes in Hseg.
    destruct (shape3 (pil_array im)) as [[h wd] ch].
    rewrite Happly in Hseg.
    exists ms, (pixel_boxes E im bs0), ps, ls.
    rewrite pixel_boxes_length in *.
    repeat split; auto; congruence.
Qed.

(** C3, as amended.  A call to [predict] that does not complete (it
    raises, or returns early on zero detections) leaves [masks], [boxes],
    [phrases], [logits] and [prediction] as they were.  Nothing is promised
    for [source] and [image], which are assigned before the detector
    runs. *)
Theorem predict_not_completed_keeps_results (img : image_arg)
        (text_prompt : string) (bt tth : float E) (output : option string)
        (mm : Z) (dt : dtype) (rr : bool) (w w' : world E)
        (res : Res (results E)) :
  predict E img text_prompt bt tth output mm dt rr w = (res, w') ->
  not_completed res w w' ->
  results_kept w w'.
Proof.
  intros H Hnot.
  destruct (predict_outcome _ _ _ _ _ _ _ _ _ _ _ _ H) as [[Hkept _]|Hok];
    [exact Hkept|].
  destruct Hok as (im & np & w1 & bs0 & ls & ps & ms & plane & acc
                   & _ & _ & _ & _ & _ & _ & Hres & Hout & _).
  destruct Hnot as [Hraise|Hearly].
  - subst res. discriminate.
  - rewrite Hout in Hearly. exfalso. exact (stdout_grows_not _ _ Hearly).
Qed.

(** C7, as amended.  After a call that returns normally with at least one
    detection, [prediction] is [(accumulator > 0) * mask_multiplier] for
    the accumulator built from the stored boxes and masks.  The
    accumulator has the configured dtype; the stored raster has NumPy's
    default integer type, whatever [dtype] is. *)
Theorem prediction_is_binarized_accumulator (img : image_arg)
        (text_prompt : string) (bt tth : float E) (output : option string)
        (mm : Z) (dt : dtype) (rr : bool) (w w' : world E)
        (r : results E) (n : nat) :
  detections_found E img text_prompt bt tth w (S n) ->
  predict E img text_prompt bt tth output mm dt rr w = (Ok r, w') ->
  exists plane bs ms acc,
    boxes (self w') = Some bs /\ masks (self w') = Some ms /\
    accumulate E dt plane bs ms = Ok acc /\
    dtype2 acc = dt /\
    prediction (self w') = Some (binarize acc mm) /\
    dtype2 (binarize acc mm) = int64 /\
    shape2 (binarize acc mm) = shape2 acc /\
    forall row col,
      at2 (binarize acc mm) row col
      = if 0 <? at2 acc row col then mm else 0.
Proof.
  intros Hfound H.
  destruct (predict_outcome _ _ _ _ _ _ _ _ _ _ _ _ H)
    as [[_ [Hraise|(_ & _ & Hzero)]]|Hok].
  - discriminate.
  - pose proof (detections_found_fun _ _ _ _ _ _ _ Hfound Hzero).
    discriminate.
  - destruct Hok as (im & np & w1 & bs0 & ls & ps & ms & plane & acc
                     & _ & _ & _ & _ & _ & Hacc & _ & _ & _ & _
                     & Hms & Hbs & _ & _ & Hpred).
    exists plane, (pixel_boxes E im bs0), ms, acc.
    repeat split; auto.
    unfold accumulate in Hacc. apply overlay_loop_dtype in Hacc.
    exact Hacc.
Qed.

(** C8.  When the string argument (or, for a URL, the path the download
    returned) names no existing file, [predict] raises [ValueError] with
    the session and the output untouched, and neither the detector nor
    the segmenter has been called. *)
Theorem predict_missing_path_raises (path0 path : string)
        (text_prompt : string) (bt tth : float E) (output : option string)
        (mm : Z) (dt : dtype) (rr : bool) (w : world E) :
  resolved_path E path0 = Ok path ->
  os_path_exists E path = false ->
  exists w',
    predict E (ImgStr path0) text_prompt bt tth output mm dt rr w
    = (Raise (ValueError ("Input path " ++ path ++ " does not exist.")%string),
       w') /\
    self w' = self w /\ stdout w' = stdout w /\
    trace w' = trace w ++ (if prefix "http" path0
                           then [Download E path0] else []) /\
    filter is_model_call (trace w') = filter is_model_call (trace w).
Proof.
  unfold resolved_path. intros Hpath Hmissing.
  unfold predict.
  cbv beta iota zeta delta [open_image bind call emit lift ret raise].
  destruct (prefix "http" path0).
  - rewrite Hpath, Hmissing. simpl.
    eexists. split; [reflexivity|]. simpl.
    repeat split. rewrite filter_app. simpl. apply app_nil_r.
  - inversion Hpath; subst path0. rewrite Hmissing. simpl.
    exists w. rewrite app_nil_r. repeat split.
Qed.

End PredictClaims.

(** ** Properties of the mask compositor *)

Lemma wrap_three (d : dtype) : wrap d 3 = 3.
Proof. destruct d; reflexivity. Qed.

(** C6.  The accumulator starts as an all-zero array of the plane's shape;
    index [i] adds [(mask > 0) * (i + 1)], so that every pixel holds the sum
    of the labels of the masks covering it (in the arithmetic of the dtype).
    Where exactly masks 0 and 1 cover a pixel the accumulator holds 3, and
    the overlay binarized with the default multiplier holds 255. *)
Theorem compositor_overlap_sums_labels (E : Externals) (d : dtype)
        (plane : nat * nat) (bs : list (box E)) (m0 m1 : barray2)
        (rest : list barray2) (row col : nat) :
  List.length bs = List.length (m0 :: m1 :: rest) ->
  Forall (fun m => bshape2 m = plane) (m0 :: m1 :: rest) ->
  bat2 m0 row col = true ->
  bat2 m1 row col = true ->
  Forall (fun m => bat2 m row col = false) rest ->
  accumulate E d plane [] [] = Ok (zeros_like plane d) /\
  exists acc,
    accumulate E d plane bs (m0 :: m1 :: rest) = Ok acc /\
    (forall r c, at2 acc r c = wrap d (label_sum 0 (m0 :: m1 :: rest) r c)) /\
    at2 acc row col = 3 /\
    at2 (binarize acc 255) row col = 255.
Proof.
  intros Hlen Hshape H0 H1 Hrest.
  split; [reflexivity|].
  destruct (accumulate_spec E d plane bs (m0 :: m1 :: rest) Hlen Hshape)
    as (acc & Hacc & _ & _ & Hat).
  assert (H3 : at2 acc row col = 3).
  { rewrite Hat. simpl. rewrite H0, H1.
    rewrite (label_sum_uncovered row col rest 2 Hrest).
    apply wrap_three. }
  exists acc. repeat split; auto.
  simpl. rewrite H3. reflexivity.
Qed.

(** C10.  With the default dtype the accumulator is an unsigned 8-bit
    array and every pixel holds the label sum modulo 256: a pixel that is
    covered by masks whose labels sum to a multiple of 256 has accumulator
    value 0 and is background in the binarized overlay. *)
Theorem accumulator_wraps_modulo_256 (E : Externals) (plane : nat * nat)
        (bs : list (box E)) (ms : list barray2) (row col : nat) (mm : Z) :
  List.length bs = List.length ms ->
  Forall (fun m => bshape2 m = plane) ms ->
  covered ms row col = true ->
  label_sum 0 ms row col mod 256 = 0 ->
  exists acc,
    accumulate E uint8 plane bs ms = Ok acc /\
    dtype2 acc = uint8 /\
    (forall r c, at2 acc r c = label_sum 0 ms r c mod 256) /\
    at2 acc row col = 0 /\
    at2 (binarize acc mm) row col = 0.
Proof.
  intros Hlen Hshape _ Hsum.
  destruct (accumulate_spec E uint8 plane bs ms Hlen Hshape)
    as (acc & Hacc & Hd & _ & Hat).
  assert (H0 : at2 acc row col = 0)
    by (rewrite Hat, wrap_uint8; exact Hsum).
  exists acc. repeat split; auto.
  simpl. rewrite H0. reflexivity.
Qed.

(** End to end: 255 detections, masks 0 and 254 (labels 1 and 255) cover
    pixel (0, 0), which ends up as background; pixel (0, 1), covered by
    mask 0 only, is foreground. *)
Example forest_pixel_lost :
  covered (map (Stub.stub_mask (2, 2)%nat 255) (seq 0 255)) 0 0 = true /\
  match prediction
          (self (Stub.after
                   (Stub.predict_default (ImgStr "scene.tif") "forest")
                   Stub.w0)) with
  | Some overlay => at2 overlay 0 0 = 0 /\ at2 overlay 0 1 = 255
  | None => False
  end.
Proof. vm_compute. repeat split. Qed.

(** ** In-memory images and the command line *)

Section InMemory.

Variable E : Externals.

(** With an in-memory image the local [image_np] is never bound, so no
    call stores a result: it raises or returns early. *)
Lemma predict_in_memory_never_stores (im : PILImage) (text_prompt : string)
      (bt tth : float E) (output : option string) (mm : Z) (dt : dtype)
      (rr : bool) (w w' : world E) (res : Res (results E)) :
  predict E (ImgObj im) text_prompt bt tth output mm dt rr w = (res, w') ->
  results_kept w w' /\ (is_raise res = true \/ res = Ok RNone).
Proof.
  intros H.
  destruct (predict_outcome _ _ _ _ _ _ _ _ _ _ _ _ H)
    as [[Hkept [Hraise|(Hres & _)]]|Hok]; auto.
  destruct Hok as (im' & np & w1 & bs0 & ls & ps & ms & plane & acc
                   & Hopen & _).
  simpl in Hopen. discriminate.
Qed.

(** With at least one detection and a segmenter that answers, the call
    stops at line 178. *)
Lemma predict_in_memory_unbound (im : PILImage) (text_prompt : string)
      (bt tth : float E) (output : option string) (mm : Z) (dt : dtype)
      (rr : bool) (w : world E) b0 bs0 ls ps ms :
  groundingdino_predict E (transform_image E im) text_prompt bt tth
    = Ok (b0 :: bs0, ls, ps) ->
  sam_set_image E (pil_array im) = Ok tt ->
  sam_predict_torch E (pil_array im)
                    (sam_boxes E im (pixel_boxes E im (b0 :: bs0))) = Ok ms ->
  fst (predict E (ImgObj im) text_prompt bt tth output mm dt rr w)
  = Raise (UnboundLocalError "image_np").
Proof.
  intros Hdet Hset Hsam.
  unfold predict, sam_boxes, pixel_boxes in *.
  cbv beta iota zeta
      delta [open_image predict_dino predict_sam call bind emit lift ret
             raise set_image read_local get_self put_self].
  rewrite Hdet. destruct (pil_size im) as [W H].
  simpl. rewrite Hset.
  destruct (shape3 (pil_array im)) as [[h wd] ch].
  simpl in Hsam. rewrite Hsam. reflexivity.
Qed.

(** [main] hands [predict] an in-memory image and unpacks what it returns:
    whatever the models answer, it ends in an exception. *)
Lemma main_never_completes (args : cli_args E) (w : world E) :
  is_raise (fst (main E args w)) = true.
Proof.
  unfold main.
  cbv beta iota zeta delta [init build_sam call bind emit lift ret raise
                            put_self].
  destruct (rasterio_read E (arg_image E args)) as [[[bands tr] crs]|e];
    [|reflexivity].
  destruct (load_groundingdino E); [|reflexivity].
  simpl. destruct (load_sam E "vit_h"); [|reflexivity].
  destruct (Image_fromarray E _) as [im|e]; [|reflexivity].
  match goal with
  | |- context [predict E ?i ?p ?b ?t ?o ?m ?d ?r ?w0] =>
      destruct (predict E i p b t o m d r w0) as [res w3] eqn:Hp
  end.
  apply predict_in_memory_never_stores in Hp.
  destruct Hp as [_ [Hraise| ->]].
  - destruct res; [discriminate|reflexivity].
  - reflexivity.
Qed.

(** Before any prediction has stored a result, [show_anns] prints
    'Please run predict() first.' and does nothing else. *)
Lemma show_anns_without_prediction (add_boxes : bool)
      (title output : option string) (blend : bool) (w : world E) :
  prediction (self w) = None ->
  show_anns E add_boxes title output blend w
  = (Ok tt, {| self := self w;
               stdout := stdout w ++ [run_predict_first_msg];
               trace := trace w |}).
Proof.
  intros Hnone. unfold show_anns, bind, get_self, print.
  rewrite Hnone. reflexivity.
Qed.

End InMemory.

(** C4.  [predict] on an in-memory image with one detection: the call
    raises [UnboundLocalError] for [image_np] instead of building the
    overlay, and stores no result. *)
Theorem predict_in_memory_image_raises :
  fst (Stub.predict_default (ImgObj Stub.rgb22) "tree" Stub.w0)
  = Raise (UnboundLocalError "image_np") /\
  prediction (self (Stub.after
                      (Stub.predict_default (ImgObj Stub.rgb22) "tree")
                      Stub.w0)) = None.
Proof. vm_compute. split; reflexivity. Qed.

(** C5.  The command line on a raster in which the prompt matches one
    object: [main] ends in [UnboundLocalError] and [mask.tif] is not
    written. *)
Theorem main_one_object_raises :
  fst (main Stub.env Stub.args_tree Stub.w0)
  = Raise (UnboundLocalError "image_np") /\
  filter is_file_write (Stub.new_events (main Stub.env Stub.args_tree) Stub.w0)
  = [].
Proof. vm_compute. split; reflexivity. Qed.

(** The command line with a prompt that matches nothing: the message is
    printed by [predict], whose [None] cannot be unpacked at line 300. *)
Example main_no_object_raises :
  let args := {| arg_image := "scene.tif"; arg_prompt := "rhinoceros";
                 arg_box_threshold := Stub.half;
                 arg_text_threshold := Stub.half |} in
  fst (main Stub.env args Stub.w0)
  = Raise (TypeError "cannot unpack non-iterable NoneType object") /\
  stdout (Stub.after (main Stub.env args) Stub.w0) = [no_objects_msg] /\
  filter is_file_write (Stub.new_events (main Stub.env args) Stub.w0) = [].
Proof. vm_compute. repeat split. Qed.

(** C9.  A prediction that found one object followed by one that found
    none: [show_anns] prints nothing, draws the first prediction's overlay
    and, given an output path, exports it. *)
Theorem show_anns_after_empty_prediction_draws :
  let m := show_anns Stub.env true None (Some "out.png") true in
  prediction (self Stub.w_tree) <> None /\
  stdout Stub.w_tree_then_nothing = [no_objects_msg] /\
  fst (m Stub.w_tree_then_nothing) = Ok tt /\
  stdout (Stub.after m Stub.w_tree_then_nothing)
  = stdout Stub.w_tree_then_nothing /\
  existsb is_rendering (Stub.new_events m Stub.w_tree_then_nothing) = true /\
  existsb is_file_write (Stub.new_events m Stub.w_tree_then_nothing) = true.
Proof.
  vm_compute. repeat split; try reflexivity. discriminate.
Qed.

(** ** The statements at the test double *)

Lemma stub_detector_aligned : detector_aligned Stub.env.
Proof.
  intros t caption bt tth bs0 ls ps H. simpl in H. inversion H.
  rewrite !repeat_length. split; reflexivity.
Defined.

Lemma stub_segmenter_aligned : segmenter_aligned Stub.env.
Proof.
  split.
  - intros bs size. reflexivity.
  - intros a bs ms H. simpl in H.
    destruct (shape3 a) as [[h w] c]. inversion H.
    rewrite length_map, length_seq. reflexivity.
Defined.

Lemma stub_found (text_prompt : string) (w : world Stub.env) :
  detections_found Stub.env (ImgStr "scene.tif") text_prompt
                   Stub.half Stub.half w (Stub.detections text_prompt).
Proof.
  eexists; eexists; eexists; eexists; eexists; eexists.
  split; [cbv; reflexivity|]. split; [reflexivity|]. apply repeat_length.
Defined.

(** An in-memory image and a prompt that matches nothing. *)
Lemma predict_zero_detections_witness :
  detections_found Stub.env (ImgObj Stub.rgb22) "rhinoceros"
                   Stub.half Stub.half Stub.w0 0 /\
  exists w',
    predict Stub.env (ImgObj Stub.rgb22) "rhinoceros" Stub.half Stub.half
            (Some "out.tif") 255 uint8 true Stub.w0 = (Ok RNone, w') /\
    stdout w' = [no_objects_msg] /\
    results_kept Stub.w0 w'.
Proof.
  assert (H : detections_found Stub.env (ImgObj Stub.rgb22) "rhinoceros"
                               Stub.half Stub.half Stub.w0 0).
  { exists Stub.rgb22, None, Stub.w0, [], [], []. repeat split. }
  split; [exact H|].
  destruct (predict_zero_detections Stub.env (ImgObj Stub.rgb22) "rhinoceros"
              Stub.half Stub.half (Some "out.tif") 255 uint8 true Stub.w0 H)
    as (w' & evs & Hp & Hout & Hkept & _).
  exists w'. repeat split; try apply Hkept; assumption.
Defined.

(** Two detections on the raster. *)
Lemma predict_fields_aligned_witness :
  let w' := Stub.after
              (Stub.predict_default (ImgStr "scene.tif") "two trees")
              Stub.w0 in
  detector_aligned Stub.env /\ segmenter_aligned Stub.env /\
  detections_found Stub.env (ImgStr "scene.tif") "two trees"
                   Stub.half Stub.half Stub.w0 2 /\
  Stub.predict_default (ImgStr "scene.tif") "two trees" Stub.w0
  = (Ok RNone, w') /\
  exists ms bs ps ls,
    masks (self w') = Some ms /\ boxes (self w') = Some bs /\
    phrases (self w') = Some ps /\ logits (self w') = Some ls /\
    List.length bs = 2%nat /\ List.length ms = 2%nat /\
    List.length ps = 2%nat /\ List.length ls = 2%nat.
Proof.
  intros w'.
  assert (Hrun : Stub.predict_default (ImgStr "scene.tif") "two trees" Stub.w0
                 = (Ok RNone, w'))
    by (vm_compute; reflexivity).
  split; [exact stub_detector_aligned|].
  split; [exact stub_segmenter_aligned|].
  split; [exact (stub_found "two trees" Stub.w0)|].
  split; [exact Hrun|].
  destruct (predict_fields_aligned Stub.env (ImgStr "scene.tif") "two trees"
              Stub.half Stub.half None 255 uint8 false Stub.w0 w' RNone 1%nat
              stub_detector_aligned stub_segmenter_aligned
              (stub_found "two trees" Stub.w0) Hrun)
    as (ms & bs & ps & ls & Hms & Hbs & Hps & Hls & Hn & Hm & Hp & Hl).
  exists ms, bs, ps, ls. repeat split; auto; congruence.
Defined.

(** An in-memory image with one detection: the call raises. *)
Lemma predict_not_completed_keeps_results_witness :
  not_completed (fst (Stub.predict_default (ImgObj Stub.rgb22) "tree" Stub.w0))
                Stub.w0
                (snd (Stub.predict_default (ImgObj Stub.rgb22) "tree" Stub.w0))
  /\
  results_kept Stub.w0
               (snd (Stub.predict_default (ImgObj Stub.rgb22) "tree" Stub.w0)).
Proof.
  assert (Hnot : not_completed
                   (fst (Stub.predict_default (ImgObj Stub.rgb22) "tree"
                                              Stub.w0))
                   Stub.w0
                   (snd (Stub.predict_default (ImgObj Stub.rgb22) "tree"
                                              Stub.w0)))
    by (left; vm_compute; reflexivity).
  split; [exact Hnot|].
  apply (predict_not_completed_keeps_results Stub.env (ImgObj Stub.rgb22)
           "tree" Stub.half Stub.half None 255 uint8 false Stub.w0 _ _
           (surjective_pairing _) Hnot).
Defined.

(** C3, refuted as stated: a call on an existing raster that finds nothing
    returns early, and by then [source] and [image] have been overwritten. *)
Lemma predict_early_return_overwrites_source :
  let p := Stub.predict_default (ImgStr "scene.tif") "rhinoceros" Stub.w0 in
  fst p = Ok RNone /\
  not_completed (fst p) Stub.w0 (snd p) /\
  source (self (snd p)) <> source (self Stub.w0) /\
  image (self (snd p)) <> image (self Stub.w0).
Proof.
  vm_compute. split; [reflexivity|]. split; [right; reflexivity|].
  split; discriminate.
Qed.

(** One detection on the raster, default dtype and multiplier. *)
Lemma prediction_is_binarized_accumulator_witness :
  detections_found Stub.env (ImgStr "scene.tif") "tree"
                   Stub.half Stub.half Stub.w0 1 /\
  Stub.predict_default (ImgStr "scene.tif") "tree" Stub.w0
  = (Ok RNone, Stub.w_tree) /\
  exists acc,
    prediction (self Stub.w_tree) = Some (binarize acc 255) /\
    dtype2 acc = uint8 /\
    dtype2 (binarize acc 255) = int64.
Proof.
  assert (Hrun : Stub.predict_default (ImgStr "scene.tif") "tree" Stub.w0
                 = (Ok RNone, Stub.w_tree))
    by (vm_compute; reflexivity).
  split; [exact (stub_found "tree" Stub.w0)|].
  split; [exact Hrun|].
  destruct (prediction_is_binarized_accumulator Stub.env
              (ImgStr "scene.tif") "tree" Stub.half Stub.half None 255 uint8
              false Stub.w0 Stub.w_tree RNone 0%nat
              (stub_found "tree" Stub.w0) Hrun)
    as (plane & bs & ms & acc & _ & _ & _ & Hd & Hpred & Hd' & _).
  exists acc. auto.
Defined.

(** C7, refuted as stated: with the default [dtype] (unsigned 8-bit) the
    stored raster is not an unsigned 8-bit array. *)
Lemma prediction_dtype_is_not_configured :
  match prediction (self Stub.w_tree) with
  | Some overlay => dtype2 overlay <> uint8
  | None => False
  end.
Proof. vm_compute. discriminate. Qed.

(** A URL whose download does not exist on disk. *)
Lemma predict_missing_path_raises_witness :
  resolved_path Stub.env "http://example.org/scene.tif"
  = Ok "/tmp/download.tif" /\
  os_path_exists Stub.env "/tmp/download.tif" = false /\
  exists w',
    predict Stub.env (ImgStr "http://example.org/scene.tif") "tree"
            Stub.half Stub.half None 255 uint8 false Stub.w0
    = (Raise (ValueError "Input path /tmp/download.tif does not exist."), w')
    /\ filter is_model_call (trace w') = [].
Proof.
  split; [reflexivity|]. split; [reflexivity|].
  destruct (predict_missing_path_raises Stub.env
              "http://example.org/scene.tif" "/tmp/download.tif" "tree"
              Stub.half Stub.half None 255 uint8 false Stub.w0
              eq_refl eq_refl)
    as (w' & Hp & _ & _ & _ & Hcalls).
  exists w'. split; [exact Hp | exact Hcalls].
Defined.

(** Two masks over pixel (0, 0). *)
Lemma compositor_overlap_sums_labels_witness :
  exists acc,
    accumulate Stub.env uint8 (2, 2)%nat (repeat Stub.unit_box 2)
               [Stub.stub_mask (2, 2)%nat 2 0; Stub.stub_mask (2, 2)%nat 2 1]
    = Ok acc /\
    at2 acc 0 0 = 3 /\ at2 (binarize acc 255) 0 0 = 255.
Proof.
  destruct (compositor_overlap_sums_labels Stub.env uint8 (2, 2)%nat
              (repeat Stub.unit_box 2)
              (Stub.stub_mask (2, 2)%nat 2 0) (Stub.stub_mask (2, 2)%nat 2 1)
              [] 0%nat 0%nat)
    as (_ & acc & Hacc & _ & H3 & H255).
  - reflexivity.
  - repeat constructor.
  - reflexivity.
  - reflexivity.
  - constructor.
  - exists acc. auto.
Defined.

(** 255 masks, the first and the last over pixel (0, 0): labels 1 and 255. *)
Lemma accumulator_wraps_modulo_256_witness :
  covered (map (Stub.stub_mask (2, 2)%nat 255) (seq 0 255)) 0 0 = true /\
  label_sum 0 (map (Stub.stub_mask (2, 2)%nat 255) (seq 0 255)) 0 0 = 256 /\
  exists acc,
    accumulate Stub.env uint8 (2, 2)%nat (repeat Stub.unit_box 255)
               (map (Stub.stub_mask (2, 2)%nat 255) (seq 0 255)) = Ok acc /\
    at2 acc 0 0 = 0 /\ at2 (binarize acc 255) 0 0 = 0.
Proof.
  split; [vm_compute; reflexivity|].
  split; [vm_compute; reflexivity|].
  destruct (accumulator_wraps_modulo_256 Stub.env (2, 2)%nat
              (repeat Stub.unit_box 255)
              (map (Stub.stub_mask (2, 2)%nat 255) (seq 0 255))
              0%nat 0%nat 255)
    as (acc & Hacc & _ & _ & H0 & Hbg).
  - vm_compute; reflexivity.
  - apply Forall_forall. intros m Hin. apply in_map_iff in Hin.
    destruct Hin as (i & Hi & _). subst m. reflexivity.
  - vm_compute; reflexivity.
  - vm_compute; reflexivity.
  - exists acc. auto.
Defined.

(** ** Construction *)

Lemma in_SAM_MODELS (model_type : string) :
  existsb (String.eqb model_type) SAM_MODELS = true <-> In model_type SAM_MODELS.
Proof.
  rewrite existsb_exists. split.
  - intros (x & Hin & Heq). apply String.eqb_eq in Heq. subst x. exact Hin.
  - intros Hin. exists model_type. split; [exact Hin|apply String.eqb_refl].
Qed.

(** [LangSAM(model_type)] returns exactly when GroundingDINO loads, the
    model type is one of vit_h, vit_l, vit_b and the SAM checkpoint loads;
    the new session then has every field [None]. *)
Theorem init_succeeds_iff (E : Externals) (model_type : string)
        (w : world E) :
  (fst (init E model_type w) = Ok tt <->
   load_groundingdino E = Ok tt /\ In model_type SAM_MODELS /\
   load_sam E model_type = Ok tt) /\
  (fst (init E model_type w) = Ok tt ->
   self (snd (init E model_type w)) = empty_session E).
Proof.
  unfold init, build_sam.
  destruct (existsb (String.eqb model_type) SAM_MODELS) eqn:Hin.
  - apply in_SAM_MODELS in Hin.
    destruct (load_groundingdino E) as [[]|e];
      destruct (load_sam E model_type) as [[]|e'];
      cbv beta iota zeta delta [call bind emit lift ret raise put_self
                                fst snd self];
      intuition (auto; try discriminate).
  - assert (Hnot : ~ In model_type SAM_MODELS)
      by (intros Hmem; apply in_SAM_MODELS in Hmem; congruence).
    destruct (load_groundingdino E) as [[]|e];
      cbv beta iota zeta delta [call bind emit lift ret raise put_self
                                fst snd self];
      intuition (auto; try discriminate).
Qed.

(** An unsupported model type is reported as a [KeyError], and only after
    GroundingDINO has been loaded; the SAM loader is not reached. *)
Theorem init_unsupported_model_type (E : Externals) (model_type : string)
        (w : world E) :
  ~ In model_type SAM_MODELS ->
  fst (init E model_type w)
  = match load_groundingdino E with
    | Ok _ => Raise (KeyError model_type)
    | Raise e => Raise e
    end.
Proof.
  intros Hnot. unfold init, build_sam.
  destruct (existsb (String.eqb model_type) SAM_MODELS) eqn:Hin.
  - apply in_SAM_MODELS in Hin. contradiction.
  - destruct (load_groundingdino E) as [[]|e]; reflexivity.
Qed.

Lemma init_unsupported_model_type_witness :
  ~ In "vit_x" SAM_MODELS /\
  fst (init Stub.env "vit_x" Stub.w0) = Raise (KeyError "vit_x").
Proof.
  assert (H : ~ In "vit_x" SAM_MODELS).
  { simpl. intros [H|[H|[H|H]]]; try discriminate; exact H. }
  split; [exact H|].
  exact (init_unsupported_model_type Stub.env "vit_x" Stub.w0 H).
Defined.

(** ** More on the mask compositor *)

Section CompositorMore.

Variable E : Externals.

Lemma iadd_cases (a b : ndarray2) :
  (broadcastable (shape2 a) (shape2 b) = true /\
   exists a', iadd a b = Ok a' /\ shape2 a' = shape2 a) \/
  (broadcastable (shape2 a) (shape2 b) = false /\
   iadd a b = Raise broadcast_error).
Proof.
  unfold iadd, broadcastable.
  destruct (shape2 a) as [H W], (shape2 b) as [h w]. simpl.
  destruct (axis_ok h H && axis_ok w W).
  - left. split; [reflexivity|]. eexists. split; reflexivity.
  - right. split; reflexivity.
Qed.

Lemma overlay_loop_cases (d : dtype) :
  forall (items : list (box E * barray2)) (i : nat) (acc : ndarray2),
    (forallb (fun it => broadcastable (shape2 acc) (bshape2 (snd it))) items
     = true /\
     exists acc', overlay_loop E d i items acc = Ok acc' /\
                  shape2 acc' = shape2 acc) \/
    (forallb (fun it => broadcastable (shape2 acc) (bshape2 (snd it))) items
     = false /\
     overlay_loop E d i items acc = Raise broadcast_error).
Proof.
  induction items as [|[b mask] rest IH]; intros i acc.
  - left. split; [reflexivity|]. exists acc. split; reflexivity.
  - simpl.
    destruct (iadd_cases acc
                (astype d (mul_int (gt0 (astype_bool d mask))
                                   (Z.of_nat i + 1))))
      as [(Hb & acc1 & Hadd & Hs1)|(Hb & Hadd)];
      simpl in Hb; rewrite Hb, Hadd; simpl.
    + destruct (IH (S i) acc1) as [(Hall & acc' & Hloop & Hs')|(Hall & Hloop)];
        rewrite Hs1 in Hall.
      * left. split; [exact Hall|]. exists acc'.
        split; [exact Hloop|congruence].
      * right. split; assumption.
    + right. split; reflexivity.
Qed.


Lemma label_sum_bounds (r c : nat) :
  forall (ms : list barray2) (i : nat),
    0 <= label_sum i ms r c /\
    2 * label_sum i ms r c
    <= Z.of_nat (List.length ms)
       * (2 * Z.of_nat i + Z.of_nat (List.length ms) + 1).
Proof.
  induction ms as [|m ms IH]; intros i; simpl label_sum.
  - simpl. lia.
  - destruct (IH (S i)) as [Hlo Hhi].
    change (List.length (m :: ms)) with (S (List.length ms)).
    destruct (bat2 m r c); nia.
Qed.

Lemma label_sum_covered (r c : nat) :
  forall (ms : list barray2) (i : nat),
    (covered ms r c = true -> 0 < label_sum i ms r c) /\
    (covered ms r c = false -> label_sum i ms r c = 0).
Proof.
  induction ms as [|m ms IH]; intros i; unfold covered in *; simpl.
  - split; [discriminate|reflexivity].
  - destruct (IH (S i)) as [Hpos Hzero].
    pose proof (label_sum_bounds r c ms (S i)) as [Hlo _].
    destruct (bat2 m r c); simpl.
    + split; [intros _; lia|discriminate].
    + split; [intros H; apply Hpos in H; lia | intros H; rewrite Hzero; auto].
Qed.


(** With the default dtype and at most 22 detections no label sum reaches
    256: the accumulator holds the exact label sums and the overlay is the
    union of the masks. *)
Theorem overlay_is_union_up_to_22 (plane : nat * nat) (bs : list (box E))
        (ms : list barray2) (mm : Z) :
  List.length bs = List.length ms ->
  Forall (fun m => bshape2 m = plane) ms ->
  (List.length ms <= 22)%nat ->
  exists acc,
    accumulate E uint8 plane bs ms = Ok acc /\
    forall row col,
      at2 acc row col = label_sum 0 ms row col /\
      at2 (binarize acc mm) row col
      = if covered ms row col then mm else 0.
Proof.
  intros Hlen Hshape Hn.
  destruct (accumulate_spec E uint8 plane bs ms Hlen Hshape)
    as (acc & Hacc & _ & _ & Hat).
  exists acc. split; [exact Hacc|]. intros row col.
  destruct (label_sum_bounds row col ms 0) as [Hlo Hhi].
  destruct (label_sum_covered row col ms 0) as [Hpos Hzero].
  assert (Hexact : at2 acc row col = label_sum 0 ms row col).
  { rewrite Hat, wrap_uint8. apply Z.mod_small. nia. }
  split; [exact Hexact|].
  simpl. rewrite Hexact.
  destruct (covered ms row col).
  - specialize (Hpos eq_refl). apply Z.ltb_lt in Hpos. rewrite Hpos.
    reflexivity.
  - rewrite (Hzero eq_refl). reflexivity.
Qed.

End CompositorMore.

(** ** More on [predict] *)

Lemma filter_none {A : Type} (f : A -> bool) (l : list A) :
  forallb (fun a => negb (f a)) l = true -> filter f l = [].
Proof.
  induction l as [|a l IH]; simpl; [reflexivity|].
  intros H. apply andb_true_iff in H. destruct H as [Ha Hl].
  destruct (f a); [discriminate|]. auto.
Qed.

(** Every path through [predict], after [open_image]: the hypotheses
    [Hopen], [Hout], [Hkept], [Himg], [Htr], [Hmodel], [Hwrite] describe the
    world [w1] in which detection starts. *)
Ltac predict_paths H :=
  unfold predict, bind in H;
  match type of H with
  | context [open_image ?E ?img ?w] =>
      destruct (open_image E img w) as [[[im np]|e] w1] eqn:Hopen;
      destruct (open_image_inv _ _ _ _ _ Hopen)
        as (Hout & Hkept & Himg & evs0 & Htr & Hmodel & Hwrite);
      apply filter_none in Hmodel; apply filter_none in Hwrite;
      [ run_in H;
        match type of H with
        | context [groundingdino_predict E ?t ?p ?b ?x] =>
            destruct (groundingdino_predict E t p b x)
              as [[[bs0 ls] ps]|e] eqn:Hdet;
            [ destruct (pil_size im) as [W HH] eqn:Hsize;
              destruct bs0 as [|b0 bs0];
              [ simpl in H; inversion H; subst; clear H
              | simpl in H;
                destruct (shape3 (pil_array im)) as [[h wd] ch] eqn:Hshape;
                crunch ]
            | inversion H; subst; clear H ]
        end
      | inversion H; subst; clear H ]
  end.

Ltac trace_split Htr :=
  simpl; rewrite Htr; rewrite <- ?app_assoc; reflexivity.

Section PredictMore.

Variable E : Externals.


(** What one call writes: nothing, or the binarized overlay, once, under
    the output path, with the session's source and the dtype. *)
Lemma predict_file_writes (img : image_arg) (text_prompt : string)
      (bt tth : float E) (output : option string) (mm : Z) (dt : dtype)
      (rr : bool) (w w' : world E) (res : Res (results E)) :
  predict E img text_prompt bt tth output mm dt rr w = (res, w') ->
  exists evs,
    trace w' = trace w ++ evs /\
    (filter is_file_write evs = [] \/
     exists out acc,
       output = Some out /\
       filter is_file_write evs
       = [ArrayToImage E (Arr2 (binarize acc mm)) out (source (self w'))
                       (Some dt)] /\
       (is_raise res = false ->
        prediction (self w') = Some (binarize acc mm))) /\
    (output = None -> filter is_file_write evs = []) /\
    (is_raise res = false -> stdout w' = stdout w -> output <> None ->
     filter is_file_write evs <> []).
Proof.
  intros H. predict_paths H;
    (eexists; split; [trace_split Htr|];
     rewrite ?filter_app, Hwrite; simpl;
     split;
     [ first [ left; reflexivity
             | right; do 2 eexists; split; [reflexivity|];
               split; [reflexivity|]; intros Hok;
               first [ discriminate Hok | reflexivity ] ]
     | split;
       [ intros Hnone; first [ reflexivity | discriminate Hnone ]
       | intros Hok Hsame Hsome;
         first [ discriminate Hok
               | discriminate
               | exfalso; apply Hsome; reflexivity
               | exfalso; simpl in Hsame; rewrite Hout in Hsame;
                 symmetry in Hsame; exact (stdout_grows_not _ _ Hsame) ] ] ]).
Qed.

(** Without an output path, [predict] writes no file, whatever happens. *)
Theorem predict_without_output_writes_nothing (img : image_arg)
        (text_prompt : string) (bt tth : float E) (mm : Z) (dt : dtype)
        (rr : bool) (w w' : world E) (res : Res (results E)) :
  predict E img text_prompt bt tth None mm dt rr w = (res, w') ->
  exists evs,
    trace w' = trace w ++ evs /\ filter is_file_write evs = [].
Proof.
  intros H. destruct (predict_file_writes _ _ _ _ _ _ _ _ _ _ _ H)
    as (evs & Htr & _ & Hnone & _).
  exists evs. split; [exact Htr|]. apply Hnone. reflexivity.
Qed.

(** With an output path, a call that returns normally with detections has
    written exactly one file: the overlay it stored in [prediction], under
    that path, with the stored [source] and the configured dtype.  No call
    writes more than that one file. *)
Theorem predict_output_written_once (img : image_arg)
        (text_prompt : string) (bt tth : float E) (out : string) (mm : Z)
        (dt : dtype) (rr : bool) (w w' : world E) (res : Res (results E)) :
  predict E img text_prompt bt tth (Some out) mm dt rr w = (res, w') ->
  exists evs,
    trace w' = trace w ++ evs /\
    (List.length (filter is_file_write evs) <= 1)%nat /\
    (is_raise res = false -> stdout w' = stdout w ->
     exists overlay,
       prediction (self w') = Some overlay /\
       filter is_file_write evs
       = [ArrayToImage E (Arr2 overlay) out (source (self w')) (Some dt)]).
Proof.
  intros H. destruct (predict_file_writes _ _ _ _ _ _ _ _ _ _ _ H)
    as (evs & Htr & Hcases & _ & Hdone).
  exists evs. split; [exact Htr|].
  destruct Hcases as [Hnil|(out' & acc & Hout' & Hone & Hpred)].
  - rewrite Hnil. split; [simpl; lia|].
    intros Hok Hsame. exfalso.
    apply (Hdone Hok Hsame); [discriminate|exact Hnil].
  - inversion Hout'; subst out'. rewrite Hone. split; [simpl; lia|].
    intros Hok _. exists (binarize acc mm). split; [apply Hpred; exact Hok|].
    reflexivity.
Qed.

(** What opening a path does (lines 145-159). *)
Lemma open_image_str_inv (path0 : string) (w w1 : world E) (im : PILImage)
      (np : option ndarray3) :
  open_image E (ImgStr path0) w = (Ok (im, np), w1) ->
  exists path bands tr crs,
    resolved_path E path0 = Ok path /\
    os_path_exists E path = true /\
    rasterio_read E path = Ok (bands, tr, crs) /\
    Image_fromarray E (first3 (transpose_120 bands)) = Ok im /\
    np = Some (transpose_120 bands) /\
    source (self w1) = Some path.
Proof.
  intros H. unfold resolved_path. run_in H.
  destruct (prefix "http" path0); crunch; simpl;
    repeat eexists; eauto;
    match goal with
    | Hn : negb _ = false |- _ => apply negb_false_iff in Hn; exact Hn
    end.
Qed.

(** Once a path input has been opened, the call leaves [source] set to the
    local path (for a URL: the downloaded file, not the URL) and [image] to
    the picture made of the raster's first three bands, however the call
    ends. *)
Theorem predict_records_source_and_image (path0 : string)
        (text_prompt : string) (bt tth : float E) (output : option string)
        (mm : Z) (dt : dtype) (rr : bool) (w wo w' : world E)
        (pil : PILImage) (arr : option ndarray3) (res : Res (results E)) :
  open_image E (ImgStr path0) w = (Ok (pil, arr), wo) ->
  predict E (ImgStr path0) text_prompt bt tth output mm dt rr w = (res, w') ->
  exists path bands tr crs,
    resolved_path E path0 = Ok path /\
    rasterio_read E path = Ok (bands, tr, crs) /\
    Image_fromarray E (first3 (transpose_120 bands)) = Ok pil /\
    source (self w') = Some path /\
    image (self w') = Some pil.
Proof.
  intros Hopen0 H.
  destruct (open_image_str_inv _ _ _ _ _ Hopen0)
    as (path & bands & tr & crs & Hres & _ & Hread & Hpil & _ & Hsrc).
  exists path, bands, tr, crs.
  split; [exact Hres|]. split; [exact Hread|]. split; [exact Hpil|].
  predict_paths H; try (inversion Hopen0; subst);
    simpl; split; solve [assumption | reflexivity].
Qed.

(** The stored overlay has the height and width of the raster that was
    read. *)
Theorem prediction_has_raster_shape (path0 : string) (text_prompt : string)
        (bt tth : float E) (output : option string) (mm : Z) (dt : dtype)
        (rr : bool) (w w' : world E) (r : results E) (n : nat) :
  detections_found E (ImgStr path0) text_prompt bt tth w (S n) ->
  predict E (ImgStr path0) text_prompt bt tth output mm dt rr w
  = (Ok r, w') ->
  exists path bands tr crs nb height width overlay,
    resolved_path E path0 = Ok path /\
    rasterio_read E path = Ok (bands, tr, crs) /\
    shape3 bands = (nb, height, width) /\
    prediction (self w') = Some overlay /\
    shape2 overlay = (height, width).
Proof.
  intros Hfound H.
  destruct (predict_outcome E _ _ _ _ _ _ _ _ _ _ _ H)
    as [[_ [Hraise|(_ & _ & Hzero)]]|Hok].
  - discriminate.
  - pose proof (detections_found_fun _ _ _ _ _ _ _ _ Hfound Hzero).
    discriminate.
  - destruct Hok as (im & np & w1 & bs0 & ls & ps & ms & plane & acc
                     & Hopen & _ & _ & _ & Hplane & Hacc & _ & _ & _ & _
                     & _ & _ & _ & _ & Hpred).
    destruct (open_image_str_inv _ _ _ _ _ Hopen)
      as (path & bands & tr & crs & Hres & _ & Hread & _ & Hnp & _).
    inversion Hnp; subst np.
    destruct (shape3 bands) as [[nb height] width] eqn:Hshape.
    exists path, bands, tr, crs, nb, height, width, (binarize acc mm).
    repeat split; auto.
    unfold plane0, transpose_120 in Hplane. rewrite Hshape in Hplane.
    simpl in Hplane. destruct (nb =? 0)%nat; [discriminate|].
    inversion Hplane; subst plane.
    unfold accumulate in Hacc.
    destruct (overlay_loop_cases E dt (combine (pixel_boxes E im bs0) ms) 0
                                 (zeros_like (height, width) dt))
      as [(_ & acc' & Hloop & Hs)|(_ & Hloop)];
      rewrite Hloop in Hacc; [|discriminate].
    inversion Hacc; subst acc'. simpl. exact Hs.
Qed.

(** What [predict] returns: the tuple only when [return_results] is set
    and results were stored, and then exactly the stored sequences;
    otherwise [None]. *)
Theorem predict_returns_stored_results (img : image_arg)
        (text_prompt : string) (bt tth : float E) (output : option string)
        (mm : Z) (dt : dtype) (rr : bool) (w w' : world E)
        (r : results E) :
  predict E img text_prompt bt tth output mm dt rr w = (Ok r, w') ->
  match r with
  | RTuple ms bs ps ls =>
      rr = true /\ bs <> [] /\
      masks (self w') = Some ms /\ boxes (self w') = Some bs /\
      phrases (self w') = Some ps /\ logits (self w') = Some ls
  | RNone =>
      rr = false \/ stdout w' = stdout w ++ [no_objects_msg]
  end.
Proof.
  intros H.
  destruct (predict_outcome E _ _ _ _ _ _ _ _ _ _ _ H)
    as [[_ [Hraise|(Hr & Hout & _)]]|Hok].
  - discriminate.
  - inversion Hr; subst r. right. exact Hout.
  - destruct Hok as (im & np & w1 & bs0 & ls & ps & ms & plane & acc
                     & _ & _ & Hne & _ & _ & _ & Hr & _ & _ & _
                     & Hms & Hbs & Hps & Hls & _).
    inversion Hr; subst r. destruct rr.
    + repeat split; auto.
      intros Hnil. apply Hne.
      apply (f_equal (@List.length (box E))) in Hnil.
      rewrite pixel_boxes_length in Hnil.
      destruct bs0; [reflexivity|discriminate].
    + left. reflexivity.
Qed.

(** The result fields are all [None] or all set: [predict] keeps that. *)
Theorem predict_keeps_all_or_none (img : image_arg) (text_prompt : string)
        (bt tth : float E) (output : option string) (mm : Z) (dt : dtype)
        (rr : bool) (w w' : world E) (res : Res (results E)) :
  all_or_none (self w) ->
  predict E img text_prompt bt tth output mm dt rr w = (res, w') ->
  all_or_none (self w').
Proof.
  intros Hinv H.
  destruct (predict_outcome E _ _ _ _ _ _ _ _ _ _ _ H)
    as [[(Hm & Hb & Hp & Hl & Hpr) _]|Hok].
  - unfold all_or_none. rewrite Hm, Hb, Hp, Hl, Hpr. exact Hinv.
  - destruct Hok as (im & np & w1 & bs0 & ls & ps & ms & plane & acc
                     & _ & _ & _ & _ & _ & _ & _ & _ & _ & _
                     & Hms & Hbs & Hps & Hls & Hpred).
    right. rewrite Hms, Hbs, Hps, Hls, Hpred.
    repeat split; discriminate.
Qed.

(** An in-memory image never yields a stored result: the call sets
    [image], leaves [source] and the result fields alone, writes nothing and
    either raises or returns [None] after reporting zero detections. *)
Theorem in_memory_predict_stores_nothing (pil : PILImage)
        (text_prompt : string) (bt tth : float E) (output : option string)
        (mm : Z) (dt : dtype) (rr : bool) (w w' : world E)
        (res : Res (results E)) :
  predict E (ImgObj pil) text_prompt bt tth output mm dt rr w = (res, w') ->
  results_kept w w' /\
  source (self w') = source (self w) /\
  image (self w') = Some pil /\
  (is_raise res = true \/
   (res = Ok RNone /\ stdout w' = stdout w ++ [no_objects_msg])) /\
  exists evs, trace w' = trace w ++ evs /\ filter is_file_write evs = [].
Proof.
  intros H.
  predict_paths H; simpl in Hopen; inversion Hopen; subst;
    (split; [repeat split|];
     split; [reflexivity|];
     split; [reflexivity|];
     split; [first [left; reflexivity | right; split; reflexivity]|];
     eexists; split;
     [simpl; rewrite <- ?app_assoc; reflexivity | reflexivity]).
Qed.

(** [main] ends in an exception and writes no file, for every command
    line and whatever the external components do. *)
Theorem main_raises_and_writes_nothing (args : cli_args E) (w : world E) :
  is_raise (fst (main E args w)) = true /\
  exists evs,
    trace (snd (main E args w)) = trace w ++ evs /\
    filter is_file_write evs = [].
Proof.
  unfold main.
  cbv beta iota zeta delta [init build_sam call bind emit lift ret raise
                            put_self].
  destruct (rasterio_read E (arg_image E args)) as [[[bands tr] crs]|e].
  2: { split; [reflexivity|]. eexists. split; reflexivity. }
  destruct (load_groundingdino E).
  2: { split; [reflexivity|]. eexists.
       split; [simpl; rewrite <- ?app_assoc; reflexivity|reflexivity]. }
  simpl. destruct (load_sam E "vit_h").
  2: { split; [reflexivity|]. eexists.
       split; [simpl; rewrite <- ?app_assoc; reflexivity|reflexivity]. }
  destruct (Image_fromarray E _) as [pil|e].
  2: { split; [reflexivity|]. eexists.
       split; [simpl; rewrite <- ?app_assoc; reflexivity|reflexivity]. }
  match goal with
  | |- context [predict E ?i ?p ?b ?t ?o ?m ?d ?r ?w0] =>
      destruct (predict E i p b t o m d r w0) as [res w3] eqn:Hp
  end.
  destruct (predict_file_writes _ _ _ _ _ _ _ _ _ _ _ Hp)
    as (evs & Htr & _ & Hnone & _).
  specialize (Hnone eq_refl). simpl in Htr.
  apply predict_in_memory_never_stores in Hp.
  destruct Hp as [_ Hend].
  assert (Hres : res = Ok RNone \/ exists e, res = Raise e).
  { destruct Hend as [Hr| ->]; [|left; reflexivity].
    destruct res; [discriminate|right; eexists; reflexivity]. }
  destruct Hres as [->|(e & ->)]; simpl;
    (split; [reflexivity|];
     exists ([RasterioRead E (arg_image E args); LoadModels E "vit_h";
              FromArray E] ++ evs);
     split; [rewrite Htr, <- !app_assoc; reflexivity
            |rewrite filter_app, Hnone; reflexivity]).
Qed.

Ltac split_oracles wa wb :=
  repeat match goal with
         | |- context [match ?x with _ => _ end] =>
             lazymatch x with
             | context [wa] => fail
             | context [wb] => fail
             | _ => destruct x eqn:?; simpl
             end
         end.

(** The outcome of [predict] does not depend on the session it starts
    from: the same arguments give the same return value or exception from
    any two worlds, and a call that stores results leaves the same session
    fields behind.  No history is kept. *)
Theorem predict_forgets_the_session (img : image_arg)
        (text_prompt : string) (bt tth : float E) (output : option string)
        (mm : Z) (dt : dtype) (rr : bool) (wa wb : world E) :
  let run := predict E img text_prompt bt tth output mm dt rr in
  fst (run wa) = fst (run wb) /\
  (is_raise (fst (run wa)) = false ->
   stdout (snd (run wa)) = stdout wa ->
   self (snd (run wa)) = self (snd (run wb))).
Proof.
  cbv zeta. unfold predict.
  cbv beta iota zeta
      delta [open_image predict_dino predict_sam call bind emit lift ret
             raise print set_source set_image set_results read_local
             get_self put_self accumulate].
  destruct img as [path0|pil]; simpl; split_oracles wa wb;
    (split; [reflexivity|];
     intros Hok Hsame;
     first [ discriminate Hok
           | reflexivity
           | exfalso; symmetry in Hsame;
             exact (stdout_grows_not _ _ Hsame) ]).
Qed.

(** Repeating a call with the same arguments gives the same return value or
    exception and leaves every session field as the first call left it. *)
Theorem predict_twice_same_session (img : image_arg) (text_prompt : string)
        (bt tth : float E) (output : option string) (mm : Z) (dt : dtype)
        (rr : bool) (w : world E) :
  let run := predict E img text_prompt bt tth output mm dt rr in
  fst (run (snd (run w))) = fst (run w) /\
  self (snd (run (snd (run w)))) = self (snd (run w)).
Proof.
  cbv zeta. unfold predict.
  cbv beta iota zeta
      delta [open_image predict_dino predict_sam call bind emit lift ret
             raise print set_source set_image set_results read_local
             get_self put_self accumulate].
  destruct img as [path0|pil]; simpl; split_oracles w w;
    (split; reflexivity).
Qed.

End PredictMore.

(** ** [show_anns] *)

Section ShowAnns.

Variable E : Externals.

Lemma for_each_emit (f : box E -> event E) :
  forall (bs : list (box E)) (w : world E),
    fst (for_each E (fun b => emit E (f b)) bs w) = Ok tt /\
    self (snd (for_each E (fun b => emit E (f b)) bs w)) = self w /\
    stdout (snd (for_each E (fun b => emit E (f b)) bs w)) = stdout w /\
    trace (snd (for_each E (fun b => emit E (f b)) bs w))
    = trace w ++ map f bs.
Proof.
  induction bs as [|b bs IH]; intros w; simpl.
  - repeat split. symmetry. apply app_nil_r.
  - unfold bind, emit at 1 3 5 7. simpl.
    destruct (IH {| self := self w; stdout := stdout w;
                    trace := trace w ++ [f b] |})
      as (Hr & Hs & Ho & Ht).
    simpl in *. rewrite Hr, Hs, Ho, Ht, <- app_assoc. repeat split.
Qed.

(** [show_anns] on a session with a non-empty stored overlay and, when
    boxes are to be drawn, stored boxes. *)
Lemma show_anns_run (add_boxes : bool) (title output : option string)
      (blend : bool) (w : world E) (anns : ndarray2) :
  prediction (self w) = Some anns ->
  fst (shape2 anns) <> 0%nat ->
  (add_boxes = true -> boxes (self w) <> None) ->
  let p := show_anns E add_boxes title output blend w in
  self (snd p) = self w /\ stdout (snd p) = stdout w /\
  exists tail,
    trace (snd p)
    = trace w ++ drawing E (self w) anns add_boxes title ++ tail /\
    match output with
    | None => fst p = Ok tt /\ tail = []
    | Some out =>
        if blend
        then match blend_images E anns (image (self w)) with
             | Ok a =>
                 tail = [BlendImages E;
                         ArrayToImage E (Arr3 a) out (source (self w)) None]
                 /\ fst p = array_to_image E (Arr3 a) out (source (self w))
                                           None
             | Raise e => tail = [BlendImages E] /\ fst p = Raise e
             end
        else tail = [ArrayToImage E (Arr2 anns) out (source (self w)) None]
             /\ fst p = array_to_image E (Arr2 anns) out (source (self w))
                                       None
    end.
Proof.
  intros Hpred Hrows Hboxes. cbv zeta. unfold drawing.
  cbv beta iota zeta
      delta [show_anns bind get_self call emit lift ret raise print].
  rewrite Hpred.
  apply Nat.eqb_neq in Hrows. rewrite Hrows.
  match goal with
  | |- context [(if add_boxes then ?a else ?b) ?w2] =>
      remember ((if add_boxes then a else b) w2) as q eqn:Hq
  end.
  assert (Hloop :
    fst q = Ok tt /\ self (snd q) = self w /\ stdout (snd q) = stdout w /\
    trace (snd q)
    = ((trace w ++ [Plt E (Figure E)])
       ++ [Plt E (ImshowImage E (image (self w)))])
      ++ (if add_boxes
          then match boxes (self w) with
               | Some bs => map (fun b => Plt E (AddPatch E b)) bs
               | None => []
               end
          else [])).
  { subst q. destruct add_boxes.
    - destruct (boxes (self w)) as [bs|];
        [|exfalso; apply Hboxes; reflexivity].
      exact (for_each_emit (fun b => Plt E (AddPatch E b)) bs _).
    - simpl. repeat split. symmetry. apply app_nil_r. }
  clear Hq. destruct q as [r w3]. simpl in Hloop.
  destruct Hloop as (Hr & Hs & Ho & Ht). subst r.
  destruct title as [t|]; destruct output as [out|]; simpl;
    rewrite ?Hs, ?Ho, ?Ht;
    try destruct blend; simpl;
    try destruct (blend_images E anns (image (self w))) as [a|e]; simpl;
    try match goal with
        | |- context [array_to_image E ?a ?o ?s ?d] =>
            destruct (array_to_image E a o s d)
        end; simpl;
    (split; [reflexivity|]; split; [reflexivity|];
     eexists; split;
     [ rewrite <- ?app_assoc; simpl; rewrite <- ?app_assoc; reflexivity
     | split; reflexivity ]).
Qed.



(** [show_anns] never changes the session, on any path, and prints at most
    one of its two messages. *)
Theorem show_anns_keeps_session (add_boxes : bool)
        (title output : option string) (blend : bool) (w : world E) :
  let p := show_anns E add_boxes title output blend w in
  self (snd p) = self w /\
  (stdout (snd p) = stdout w \/
   stdout (snd p) = stdout w ++ [run_predict_first_msg] \/
   stdout (snd p) = stdout w ++ [no_objects_msg]).
Proof.
  cbv zeta.
  destruct (prediction (self w)) as [anns|] eqn:Hpred.
  2: { rewrite (show_anns_without_prediction E _ _ _ _ w Hpred). simpl.
       split; [reflexivity|]. right. left. reflexivity. }
  destruct (fst (shape2 anns) =? 0)%nat eqn:Hrows.
  { unfold show_anns, bind, get_self, print. rewrite Hpred, Hrows. simpl.
    split; [reflexivity|]. right. right. reflexivity. }
  apply Nat.eqb_neq in Hrows.
  destruct add_boxes; [destruct (boxes (self w)) as [bs|] eqn:Hboxes|].
  - destruct (show_anns_run true title output blend w anns Hpred Hrows)
      as (Hs & Ho & _); [rewrite Hboxes; discriminate|].
    split; [exact Hs|left; exact Ho].
  - apply Nat.eqb_neq in Hrows.
    cbv beta iota zeta
        delta [show_anns bind get_self call emit lift ret raise print].
    rewrite Hpred, Hrows, Hboxes. simpl.
    split; [reflexivity|left; reflexivity].
  - destruct (show_anns_run false title output blend w anns Hpred Hrows)
      as (Hs & Ho & _); [discriminate|].
    split; [exact Hs|left; exact Ho].
Qed.




End ShowAnns.

(** ** The further statements at the test double *)


Lemma overlay_is_union_up_to_22_witness :
  exists acc,
    accumulate Stub.env uint8 (2, 2)%nat (repeat Stub.unit_box 2)
               [Stub.stub_mask (2, 2)%nat 2 0; Stub.stub_mask (2, 2)%nat 2 1]
    = Ok acc /\
    at2 (binarize acc 255) 0 1 = 255 /\ at2 (binarize acc 255) 1 0 = 0.
Proof.
  destruct (overlay_is_union_up_to_22 Stub.env (2, 2)%nat
              (repeat Stub.unit_box 2)
              [Stub.stub_mask (2, 2)%nat 2 0; Stub.stub_mask (2, 2)%nat 2 1]
              255)
    as (acc & Hacc & Hat).
  - reflexivity.
  - repeat constructor.
  - simpl. lia.
  - exists acc. split; [exact Hacc|].
    split; [exact (proj2 (Hat 0%nat 1%nat)) | exact (proj2 (Hat 1%nat 0%nat))].
Defined.


Lemma predict_without_output_writes_nothing_witness :
  exists evs,
    trace Stub.w_tree = trace Stub.w0 ++ evs /\
    filter is_file_write evs = [].
Proof.
  exact (predict_without_output_writes_nothing Stub.env (ImgStr "scene.tif")
           "tree" Stub.half Stub.half 255 uint8 false Stub.w0 _ _
           (surjective_pairing _)).
Defined.

Lemma predict_output_written_once_witness :
  let run := predict Stub.env (ImgStr "scene.tif") "tree" Stub.half Stub.half
                     (Some "mask.tif") 255 uint8 false Stub.w0 in
  exists evs,
    trace (snd run) = trace Stub.w0 ++ evs /\
    (List.length (filter is_file_write evs) <= 1)%nat.
Proof.
  intros run.
  destruct (predict_output_written_once Stub.env (ImgStr "scene.tif") "tree"
              Stub.half Stub.half "mask.tif" 255 uint8 false Stub.w0 _ _
              (surjective_pairing run))
    as (evs & Htr & Hle & _).
  exists evs. split; [exact Htr | exact Hle].
Defined.

Lemma predict_records_source_and_image_witness :
  source (self Stub.w_tree) = Some "scene.tif" /\
  image (self Stub.w_tree) = Some Stub.rgb22.
Proof.
  assert (Hopen : open_image Stub.env (ImgStr "scene.tif") Stub.w0
                  = (Ok (Stub.rgb22, Some (transpose_120 Stub.bands322)),
                     snd (open_image Stub.env (ImgStr "scene.tif") Stub.w0)))
    by (vm_compute; reflexivity).
  destruct (predict_records_source_and_image Stub.env "scene.tif" "tree"
              Stub.half Stub.half None 255 uint8 false Stub.w0 _ _
              Stub.rgb22 _ _ Hopen (surjective_pairing _))
    as (path & bands & tr & crs & Hres & _ & _ & Hsrc & Himg).
  inversion Hres; subst path.
  split; [exact Hsrc | exact Himg].
Defined.

Lemma prediction_has_raster_shape_witness :
  exists overlay,
    prediction (self Stub.w_tree) = Some overlay /\
    shape2 overlay = (2, 2)%nat.
Proof.
  assert (Hrun : predict Stub.env (ImgStr "scene.tif") "tree" Stub.half
                         Stub.half None 255 uint8 false Stub.w0
                 = (Ok RNone, Stub.w_tree))
    by (vm_compute; reflexivity).
  destruct (prediction_has_raster_shape Stub.env "scene.tif" "tree"
              Stub.half Stub.half None 255 uint8 false Stub.w0 Stub.w_tree
              RNone 0%nat (stub_found "tree" Stub.w0) Hrun)
    as (path & bands & tr & crs & nb & height & width & overlay
        & Hres & Hread & Hshape & Hpred & Hs).
  inversion Hres; subst path. inversion Hread; subst bands.
  inversion Hshape; subst. exists overlay. split; assumption.
Defined.

Lemma predict_returns_stored_results_witness :
  match fst (predict Stub.env (ImgStr "scene.tif") "two trees" Stub.half
                     Stub.half None 255 uint8 true Stub.w0) with
  | Ok (RTuple ms bs ps ls) => List.length bs = 2%nat
  | _ => False
  end.
Proof.
  assert (Hrun : exists r,
             predict Stub.env (ImgStr "scene.tif") "two trees" Stub.half
                     Stub.half None 255 uint8 true Stub.w0
             = (Ok r,
                snd (predict Stub.env (ImgStr "scene.tif") "two trees"
                             Stub.half Stub.half None 255 uint8 true
                             Stub.w0)))
    by (eexists; vm_compute; reflexivity).
  destruct Hrun as (r & Hrun).
  pose proof (predict_returns_stored_results Stub.env _ _ _ _ _ _ _ _ _ _ _
                Hrun) as Hret.
  rewrite Hrun. simpl.
  destruct r as [|ms bs ps ls].
  - destruct Hret as [Hrr|Hout]; [discriminate|].
    apply (f_equal (@List.length string)) in Hout.
    vm_compute in Hout. discriminate.
  - destruct Hret as (_ & _ & _ & Hbs & _).
    vm_compute in Hbs. inversion Hbs. reflexivity.
Defined.

Lemma predict_keeps_all_or_none_witness :
  all_or_none (self Stub.w0) /\ all_or_none (self Stub.w_tree) /\
  all_or_none (self Stub.w_tree_then_nothing).
Proof.
  assert (H0 : all_or_none (self Stub.w0)) by (left; repeat split).
  assert (H1 : all_or_none (self Stub.w_tree)).
  { exact (predict_keeps_all_or_none Stub.env (ImgStr "scene.tif") "tree"
             Stub.half Stub.half None 255 uint8 false Stub.w0 _ _ H0
             (surjective_pairing _)). }
  split; [exact H0|]. split; [exact H1|].
  exact (predict_keeps_all_or_none Stub.env (ImgStr "scene.tif") "rhinoceros"
           Stub.half Stub.half None 255 uint8 false Stub.w_tree _ _ H1
           (surjective_pairing _)).
Defined.

Lemma in_memory_predict_stores_nothing_witness :
  results_kept Stub.w_tree
               (Stub.after (Stub.predict_default (ImgObj Stub.rgb22) "tree")
                           Stub.w_tree) /\
  image (self (Stub.after (Stub.predict_default (ImgObj Stub.rgb22) "tree")
                          Stub.w_tree)) = Some Stub.rgb22.
Proof.
  destruct (in_memory_predict_stores_nothing Stub.env Stub.rgb22 "tree"
              Stub.half Stub.half None 255 uint8 false Stub.w_tree _ _
              (surjective_pairing _))
    as (Hkept & _ & Himg & _).
  split; [exact Hkept | exact Himg].
Defined.




